(** * Loongson-3 platform glue: HPET clock-event driver and firmware environment

    A shallow embedding of
    - the HPET driver (the second unit of [arch/mips/include/asm/time.h] as
      shipped here: [hpet_read], [hpet_write], the counter helpers, the
      clock-event mode callbacks, [hpet_next_event], [hpet_irq_handler],
      [hpet_setup], [hpet_suspend], [hpet_resume]);
    - [prom_init_env] of [arch/mips/loongson64/common/env.c], in both of its
      build variants (PMON argument list and LEFI tables).

    C integers are [Z] with the wrap-around of each conversion written out;
    memory-mapped registers live behind an abstract device, so that volatile
    registers may answer anything; every access is also appended to a log. *)

From Stdlib Require Import ZArith List Lia Bool Ascii String.
From stdpp Require Import base gmap strings list pretty.

Local Open Scope Z_scope.

(** ** C integer conversions *)

Definition u32 (x : Z) : Z := x mod 2 ^ 32.
Definition s32 (x : Z) : Z := (x + 2 ^ 31) mod 2 ^ 32 - 2 ^ 31.
Definition u64 (x : Z) : Z := x mod 2 ^ 64.

(** ** Devices behind the physical address space *)

(** A device answers 32-bit loads and accepts 32-bit stores; both may change
    its state (status bits, a running counter). *)
Class Mmio (D : Type) := {
  mmio_load : Z -> D -> Z * D;
  mmio_store : Z -> Z -> D -> D
}.

(** Latched registers: a load returns the last value stored. *)
#[global] Instance regfile_mmio : Mmio (gmap Z Z) := {|
  mmio_load a m := (default 0 (m !! a), m);
  mmio_store a v m := <[a := v]> m
|}.

(** A register file whose word at [tk_addr] advances by [tk_rate] after
    every load from it: a free-running counter seen from the bus. *)
Record ticking := Ticking {
  tk_regs : gmap Z Z;
  tk_addr : Z;
  tk_rate : Z
}.

#[global] Instance ticking_mmio : Mmio ticking := {|
  mmio_load a t :=
    let v := default 0 (tk_regs t !! a) in
    (v, if decide (a = tk_addr t)
        then Ticking (<[a := u32 (v + tk_rate t)]> (tk_regs t)) (tk_addr t) (tk_rate t)
        else t);
  mmio_store a v t := Ticking (<[a := v]> (tk_regs t)) (tk_addr t) (tk_rate t)
|}.

(** ** Kernel state seen by the driver *)

(** [enum] of [loongson-pch.h]: the type tag of a platform controller hub. *)
Inductive pch_type := LS2H | LS7A | RS780E.

Inductive event :=
| Load (addr val : Z)
| Store (addr val : Z)
| SpinLock
| SpinUnlock
| PrInfo (msg : string)
| Udelay (usecs : Z)
| EventHandler (cpu : Z).

Record kernel (D : Type) := Kernel {
  hpet_irq_flags : Z;          (* unsigned int hpet_irq_flags *)
  hpet_mmio_base : Z;          (* unsigned long long hpet_mmio_base *)
  loongson_pch_type : pch_type;(* loongson_pch->type *)
  sysconf_ht_control_base : Z;         (* loongson_sysconf.sysconf_ht_control_base *)
  processor : Z;               (* smp_processor_id() *)
  bus : D;
  log : list event
}.
Arguments Kernel {D}.
Arguments hpet_irq_flags {D}.
Arguments hpet_mmio_base {D}.
Arguments loongson_pch_type {D}.
Arguments sysconf_ht_control_base {D}.
Arguments processor {D}.
Arguments bus {D}.
Arguments log {D}.

Definition with_bus {D} (k : kernel D) (d : D) (e : list event) : kernel D :=
  Kernel (hpet_irq_flags k) (hpet_mmio_base k) (loongson_pch_type k)
         (sysconf_ht_control_base k) (processor k) d (log k ++ e).

(** ** The monad of kernel code *)

Definition M (D A : Type) : Type := kernel D -> A * kernel D.

#[global] Instance M_ret D : MRet (M D) := fun A (a : A) k => (a, k).
#[global] Instance M_bind D : MBind (M D) :=
  fun A B (f : A -> M D B) (c : M D A) k => let '(a, k') := c k in f a k'.

Definition get {D} : M D (kernel D) := fun k => (k, k).
Definition emit {D} (e : event) : M D unit := fun k => (tt, with_bus k (bus k) [e]).

(** [*(volatile unsigned int * )addr] as an rvalue. *)
Definition readl {D} `{Mmio D} (addr : Z) : M D Z := fun k =>
  let '(v, d) := mmio_load addr (bus k) in
  (u32 v, with_bus k d [Load addr (u32 v)]).

(** [*(volatile unsigned int * )addr = data]. *)
Definition writel {D} `{Mmio D} (addr data : Z) : M D unit := fun k =>
  (tt, with_bus k (mmio_store addr (u32 data) (bus k)) [Store addr (u32 data)]).

Definition spin_lock {D} : M D unit := emit SpinLock.
Definition spin_unlock {D} : M D unit := emit SpinUnlock.
Definition pr_info {D} (msg : string) : M D unit := emit (PrInfo msg).
Definition udelay {D} (usecs : Z) : M D unit := emit (Udelay usecs).

(** ** Constants of headers that are not part of the sources *)

(** [asm/hpet.h]: register offsets and bit masks of the timer block;
    [ETIME] of [errno.h]. They are parameters of the development. *)
Class hpet_h := {
  HPET_CFG : Z;
  HPET_STATUS : Z;
  HPET_COUNTER : Z;
  HPET_T0_CFG : Z;
  HPET_T0_CMP : Z;
  HPET_CFG_ENABLE : Z;
  HPET_TN_LEVEL : Z;
  HPET_TN_ENABLE : Z;
  HPET_TN_PERIODIC : Z;
  HPET_TN_SETVAL : Z;
  HPET_TN_32BIT : Z;
  HPET_T0_IRS : Z;
  HPET_COMPARE_VAL : Z;
  HPET_ADDR : Z;
  ETIME : Z
}.

(** The values of the mainline Loongson header, used to run the model. *)
Definition loongson_hpet_h : hpet_h := {|
  HPET_CFG := 0x010;
  HPET_STATUS := 0x020;
  HPET_COUNTER := 0x0f0;
  HPET_T0_CFG := 0x100;
  HPET_T0_CMP := 0x108;
  HPET_CFG_ENABLE := 0x001;
  HPET_TN_LEVEL := 0x0002;
  HPET_TN_ENABLE := 0x0004;
  HPET_TN_PERIODIC := 0x0008;
  HPET_TN_SETVAL := 0x0040;
  HPET_TN_32BIT := 0x0100;
  HPET_T0_IRS := 0x001;
  HPET_COMPARE_VAL := 57275;
  HPET_ADDR := 0x20000;
  ETIME := 62
|}.

(** [irqreturn_t]. *)
Inductive irqreturn_t := IRQ_NONE | IRQ_HANDLED.

Definition SMBUS_PCI_REG40 : Z := 0x40.
Definition SMBUS_PCI_REG64 : Z := 0x64.
Definition SMBUS_PCI_REGB4 : Z := 0xb4.

Definition HPET_MIN_CYCLES : Z := 16.
Definition HPET_MIN_PROG_DELTA : Z := HPET_MIN_CYCLES * 12.

(** ** The driver *)

Section Hpet.
Context {D : Type} `{Mmio D} `{hpet_h}.

(** The event handler the clock-event framework installed for a processor:
    opaque kernel code. *)
Variable event_handler : Z -> M D unit.

Definition SMBUS_CFG_BASE : M D Z :=
  k ← get; mret (u64 (sysconf_ht_control_base k + 0x0300a000)).

Definition smbus_read (offset : Z) : M D Z :=
  base ← SMBUS_CFG_BASE; readl (u64 (base + offset)).

Definition smbus_write (offset data : Z) : M D unit :=
  base ← SMBUS_CFG_BASE; writel (u64 (base + offset)) data.

Definition smbus_enable (offset bit : Z) : M D unit :=
  cfg ← smbus_read offset;
  let cfg := u32 (Z.lor cfg bit) in
  smbus_write offset cfg.

(** The result is an [int]. *)
Definition hpet_read (offset : Z) : M D Z :=
  k ← get;
  v ← readl (u64 (hpet_mmio_base k + offset));
  mret (s32 v).

Definition hpet_write (offset data : Z) : M D unit :=
  k ← get;
  writel (u64 (hpet_mmio_base k + offset)) data.

Definition hpet_start_counter : M D unit :=
  cfg ← hpet_read HPET_CFG;
  let cfg := u32 cfg in
  let cfg := u32 (Z.lor cfg HPET_CFG_ENABLE) in
  hpet_write HPET_CFG cfg.

Definition hpet_stop_counter : M D unit :=
  cfg ← hpet_read HPET_CFG;
  let cfg := u32 cfg in
  let cfg := u32 (Z.land cfg (Z.lnot HPET_CFG_ENABLE)) in
  hpet_write HPET_CFG cfg.

Definition hpet_reset_counter : M D unit :=
  hpet_write HPET_COUNTER 0;;
  hpet_write (HPET_COUNTER + 4) 0.

Definition hpet_restart_counter : M D unit :=
  hpet_stop_counter;;
  hpet_reset_counter;;
  hpet_start_counter.

(** Do nothing on Loongson-3. *)
Definition hpet_enable_legacy_int : M D unit := mret tt.

Definition hpet_set_state_periodic : M D Z :=
  spin_lock;;
  pr_info "set clock event to periodic mode!";;
  hpet_stop_counter;;
  hpet_reset_counter;;
  hpet_write HPET_T0_CMP 0;;
  cfg ← hpet_read HPET_T0_CFG;
  k ← get;
  let cfg := s32 (Z.land cfg (Z.lnot HPET_TN_LEVEL)) in
  let cfg := s32 (Z.lor cfg
               (Z.lor (Z.lor (Z.lor (Z.lor HPET_TN_ENABLE HPET_TN_PERIODIC)
                                    HPET_TN_SETVAL)
                             HPET_TN_32BIT)
                      (hpet_irq_flags k))) in
  hpet_write HPET_T0_CFG cfg;;
  hpet_write HPET_T0_CMP HPET_COMPARE_VAL;;
  udelay 1;;
  hpet_write HPET_T0_CMP HPET_COMPARE_VAL;;
  hpet_start_counter;;
  spin_unlock;;
  mret 0.

Definition hpet_set_state_shutdown : M D Z :=
  spin_lock;;
  cfg ← hpet_read HPET_T0_CFG;
  let cfg := s32 (Z.land cfg (Z.lnot HPET_TN_ENABLE)) in
  hpet_write HPET_T0_CFG cfg;;
  spin_unlock;;
  mret 0.

Definition hpet_set_state_oneshot : M D Z :=
  spin_lock;;
  pr_info "set clock event to one shot mode!";;
  cfg ← hpet_read HPET_T0_CFG;
  let cfg := s32 (Z.land cfg (Z.lnot HPET_TN_PERIODIC)) in
  let cfg := s32 (Z.lor cfg (Z.lor HPET_TN_ENABLE HPET_TN_32BIT)) in
  hpet_write HPET_T0_CFG cfg;;
  spin_unlock;;
  mret 0.

Definition hpet_tick_resume : M D Z :=
  spin_lock;;
  hpet_enable_legacy_int;;
  spin_unlock;;
  mret 0.

(** [delta] is an [unsigned long]; [cnt] a [u32], [res] an [s32]. *)
Definition hpet_next_event (delta : Z) : M D Z :=
  cnt ← hpet_read HPET_COUNTER;
  let cnt := u32 cnt in
  let cnt := u32 (cnt + u32 delta) in
  hpet_write HPET_T0_CMP cnt;;
  now ← hpet_read HPET_COUNTER;
  let res := s32 (u32 (cnt - now)) in
  mret (if res <? HPET_MIN_CYCLES then - ETIME else 0).

Definition hpet_irq_handler : M D irqreturn_t :=
  k ← get;
  let cpu := processor k in
  is_irq ← hpet_read HPET_STATUS;
  if negb (Z.land is_irq HPET_T0_IRS =? 0) then
    hpet_write HPET_STATUS HPET_T0_IRS;;
    emit (EventHandler cpu);;
    event_handler cpu;;
    mret IRQ_HANDLED
  else mret IRQ_NONE.

Definition hpet_setup : M D unit :=
  k ← get;
  (match loongson_pch_type k with
   | RS780E =>
       smbus_write SMBUS_PCI_REGB4 HPET_ADDR;;
       smbus_enable SMBUS_PCI_REG40 (Z.shiftl 1 28);;
       smbus_enable SMBUS_PCI_REG64 (Z.shiftl 1 10)
   | _ => mret tt
   end);;
  hpet_enable_legacy_int.

Definition hpet_read_counter : M D Z :=
  v ← hpet_read HPET_COUNTER; mret (u64 v).

Definition hpet_suspend : M D unit := mret tt.

Definition hpet_resume : M D unit :=
  hpet_setup;;
  hpet_restart_counter.

End Hpet.

(** ** C strings

    A [string] stands for the bytes of a C string before its terminating
    NUL. *)

(** Modelled from the spec: [strlen], [strncmp] and [strstr] of
    [lib/string.c] are not among the sources. The spec has an entry matched
    against a key name and a board name searched for "2H" or "7A" anywhere in
    it; the definitions are the C library functions of these names, which
    compare byte by byte (so with regard to case). *)
Definition strlen (s : string) : nat := String.length s.

(** The pointer [p + n]; past the end of the text nothing is left. *)
Fixpoint str_plus (p : string) (n : nat) {struct n} : string :=
  match n, p with
  | O, _ => p
  | S n', String _ rest => str_plus rest n'
  | S _, EmptyString => EmptyString
  end.

Definition uchar (c : ascii) : Z := Z.of_nat (nat_of_ascii c).

Fixpoint strncmp (cs ct : string) (count : nat) {struct count} : Z :=
  match count with
  | O => 0
  | S count' =>
      match cs, ct with
      | EmptyString, EmptyString => 0
      | EmptyString, String _ _ => -1
      | String _ _, EmptyString => 1
      | String c1 cs', String c2 ct' =>
          if uchar c1 =? uchar c2 then strncmp cs' ct' count'
          else if uchar c1 <? uchar c2 then -1 else 1
      end
  end.

(** [memcmp (s1, s2, strlen s2) == 0] when at least that many bytes of [s1]
    are left. *)
Fixpoint starts_with (s1 s2 : string) : bool :=
  match s2, s1 with
  | EmptyString, _ => true
  | String _ _, EmptyString => false
  | String c2 s2', String c1 s1' => (uchar c1 =? uchar c2) && starts_with s1' s2'
  end.

(** The offset of the first occurrence of [s2] in [s1], [None] for a null
    result. *)
Fixpoint strstr (s1 s2 : string) : option nat :=
  if starts_with s1 s2 then Some O
  else match s1 with
       | EmptyString => None
       | String _ s1' => S <$> strstr s1' s2
       end.

Definition digit_of (c : ascii) : option Z :=
  let v := uchar c - 48 in
  if (0 <=? v) && (v <? 10) then Some v else None.

(** The digits at the head of [s], accumulated on [acc]: the value, what is
    left of the text, and whether a digit was read. *)
Fixpoint parse_integer (s : string) (acc : Z) (seen : bool) : Z * string * bool :=
  match s with
  | EmptyString => (acc, s, seen)
  | String c rest =>
      match digit_of c with
      | Some v => parse_integer rest (acc * 10 + v) true
      | None => (acc, s, seen)
      end
  end.

(** Modelled from the spec: [kstrtou32] of [lib/kstrtox.c], with base 10, is
    not among the sources. The spec has the decimal numeric suffix of an entry
    parsed and stored. As the kernel documents the function, the numeral may
    carry a leading plus sign and one trailing newline; nothing is stored
    ([None]) when the text is not such a numeral or its value does not fit
    32 bits. *)
Definition kstrtou32 (s : string) : option Z :=
  let s := match s with
           | String "+"%char rest => rest
           | _ => s
           end in
  let '(v, rest, seen) := parse_integer s 0 false in
  let rest := match rest with
              | String "010"%char rest' => rest'
              | _ => rest
              end in
  if negb seen then None
  else match rest with
       | EmptyString => if v <? 2 ^ 32 then Some v else None
       | String _ _ => None
       end.

(** [strncpy] into and [strncat] onto a buffer whose text is [dest]. The
    text of a buffer is what it holds up to its terminator, so the two
    functions are the C ones as long as the result, with its terminator, fits
    the array it is written to (64 bytes for [cpu_full_name]): a [strncpy] of
    a source of [count] characters or more leaves the array unterminated, and
    a [strncat] onto a text with too little room writes past the array; of
    such runs the functions say nothing. *)
Definition strncpy (src : string) (count : nat) : string := substring 0 count src.
Definition strncat (dest src : string) (count : nat) : string :=
  dest +:+ substring 0 count src.

(** ** Firmware tables and the system configuration *)

(** [enum loongson_cpu_type] of [boot_param.h]; only four enumerants are
    named by the resolver, every other value is kept by its code. *)
Inductive loongson_cpu_type :=
| Legacy_3A
| Loongson_3A
| Legacy_3B
| Loongson_3B
| Other_cpu_type (code : Z).

(** Descriptors the resolver copies without looking inside. *)
Inductive uart_device := UartDevice (raw : list Z).
Inductive sensor_device := SensorDevice (raw : list Z).

(** The LEFI tables. The chain of offsets from [fw_arg2] to each table is
    not modelled: a [boot_params] value holds the tables themselves. *)
Module Fw.
Record efi_cpuinfo_loongson := {
  cputype : loongson_cpu_type;
  nr_cpus : Z;
  cpu_clock_freq : Z;
  cpu_startup_core_id : Z;
  reserved_cores_mask : Z;
  cpuname : string
}.
Record system_loongson := {
  vers : Z;
  has_ec : Z;
  ec_name : string;
  nr_uarts : Z;
  uarts : list uart_device;
  nr_sensors : Z;
  sensors : list sensor_device;
  workarounds : Z;
  of_dtb_addr : Z
}.
Record board_devices := { name : string }.
Record irq_source_routing_table := {
  pci_mem_start_addr : Z;
  pci_mem_end_addr : Z;
  pci_io_start_addr : Z;
  dma_mask_bits : Z;
  dma_noncoherent : Z
}.
Record boot_params := {
  esys : system_loongson;
  ecpu : efi_cpuinfo_loongson;
  eboard : board_devices;
  eirq_source : irq_source_routing_table;
  ResetWarm : Z;
  Shutdown : Z;
  DoSuspend : Z;
  vga_bios : Z
}.
End Fw.

Inductive platform_controller_hub := dummy_pch | ls2h_pch | ls7a_pch | rs780_pch.

Inductive fdt_blob :=
| dtb_loongson3_ls2h_begin
| dtb_loongson3_ls7a_begin
| dtb_loongson3_rs780_begin
| dtb_at (addr : Z).

Record loongson_system_configuration := Sysconf {
  cputype : option loongson_cpu_type;
  cores_per_node : Z;
  cores_per_package : Z;
  nr_cpus : Z;
  nr_nodes : Z;
  boot_cpu_id : Z;
  reserved_cpus_mask : Z;
  ht_control_base : Z;
  workarounds : Z;
  pci_mem_start_addr : Z;
  pci_mem_end_addr : Z;
  pci_io_base : Z;
  dma_mask_bits : Z;
  ec_sci_irq : Z;
  restart_addr : Z;
  poweroff_addr : Z;
  suspend_addr : Z;
  vgabios_addr : Z;
  ecname : string;
  nr_uarts : Z;
  uarts : list uart_device;
  nr_sensors : Z;
  sensors : list sensor_device
}.

(** The globals [prom_init_env] reads and writes. *)
Record globals := Globals {
  cpu_clock_freq : Z;
  memsize : Z;
  highmemsize : Z;
  cpu_full_name : string;
  loongson_sysconf : loongson_system_configuration;
  loongson_chipcfg : list Z;
  loongson_chiptemp : list Z;
  loongson_freqctrl : list Z;
  smp_group : list Z;
  loongson_fdt_blob : option fdt_blob;
  loongson_pch : option platform_controller_hub;
  hw_coherentio : Z;
  mips_cpu_frequency : Z;
  cpu_full_name_0 : string        (* __cpu_full_name[0] *)
}.

(** Build constants and the processor-revision codes of [asm/cpu.h],
    [boot_param.h] and [workarounds.h]: parameters of the development. *)
Class env_h := {
  NR_CPUS : Z;
  MAX_UARTS : Z;
  MAX_SENSORS : Z;
  WORKAROUND_CPUFREQ : Z;
  WORKAROUND_CPUHOTPLUG : Z;
  PRID_REV_MASK : Z;
  PRID_REV_LOONGSON2E : Z;
  PRID_REV_LOONGSON2F : Z;
  PRID_REV_LOONGSON3A_R1 : Z;
  PRID_REV_LOONGSON3A_R2_0 : Z;
  PRID_REV_LOONGSON3A_R2_1 : Z;
  PRID_REV_LOONGSON3A_R3_0 : Z;
  PRID_REV_LOONGSON3A_R3_1 : Z;
  PRID_REV_LOONGSON3B_R1 : Z;
  PRID_REV_LOONGSON3B_R2 : Z
}.

(** The values of a four-processor Loongson-3 build, used to run the model. *)
Definition loongson3_env_h : env_h := {|
  NR_CPUS := 4;
  MAX_UARTS := 64;
  MAX_SENSORS := 64;
  WORKAROUND_CPUFREQ := 0x1;
  WORKAROUND_CPUHOTPLUG := 0x2;
  PRID_REV_MASK := 0x00ff;
  PRID_REV_LOONGSON2E := 0x0002;
  PRID_REV_LOONGSON2F := 0x0003;
  PRID_REV_LOONGSON3A_R1 := 0x0005;
  PRID_REV_LOONGSON3A_R2_0 := 0x0008;
  PRID_REV_LOONGSON3A_R2_1 := 0x000c;
  PRID_REV_LOONGSON3A_R3_0 := 0x0009;
  PRID_REV_LOONGSON3A_R3_1 := 0x000d;
  PRID_REV_LOONGSON3B_R1 := 0x0006;
  PRID_REV_LOONGSON3B_R2 := 0x0007
|}.

(** The zero-initialised globals the kernel image starts with. *)
Definition boot_sysconf : loongson_system_configuration :=
  Sysconf None 0 0 0 0 0 0 0 0 0 0 0 0 0 0 0 0 0 "" 0 [] 0 [].

Definition boot_globals (fallback_name : string) : globals :=
  Globals 0 0 0 "" boot_sysconf [0xffffffffbfc00180; 0; 0; 0] [0; 0; 0; 0]
          [0; 0; 0; 0] [0; 0; 0; 0] None None 0 0 fallback_name.

Definition set_nr_uarts (n : Z) (sc : loongson_system_configuration) :=
  Sysconf (cputype sc) (cores_per_node sc) (cores_per_package sc) (nr_cpus sc)
    (nr_nodes sc) (boot_cpu_id sc) (reserved_cpus_mask sc) (ht_control_base sc)
    (workarounds sc) (pci_mem_start_addr sc) (pci_mem_end_addr sc)
    (pci_io_base sc) (dma_mask_bits sc) (ec_sci_irq sc) (restart_addr sc)
    (poweroff_addr sc) (suspend_addr sc) (vgabios_addr sc) (ecname sc)
    n (uarts sc) (nr_sensors sc) (sensors sc).

(** Stores to elements 0 to 3 of an array. *)
Definition store4 (a b c d : Z) (arr : list Z) : list Z :=
  <[3%nat := d]> (<[2%nat := c]> (<[1%nat := b]> (<[0%nat := a]> arr))).

(** [memcpy (dst, src, sizeof elem * n)] on arrays of [elem]. *)
Definition memcpy {A} (dst src : list A) (n : Z) : list A :=
  take (Z.to_nat n) src ++ drop (Z.to_nat n) dst.

Definition set_parsed (freq mem high : Z) (g : globals) : globals :=
  Globals freq mem high (cpu_full_name g) (loongson_sysconf g)
    (loongson_chipcfg g) (loongson_chiptemp g) (loongson_freqctrl g)
    (smp_group g) (loongson_fdt_blob g) (loongson_pch g) (hw_coherentio g)
    (mips_cpu_frequency g) (cpu_full_name_0 g).

Definition set_hub (pch : platform_controller_hub)
    (sc : loongson_system_configuration) (g : globals) : globals :=
  Globals (cpu_clock_freq g) (memsize g) (highmemsize g) (cpu_full_name g) sc
    (loongson_chipcfg g) (loongson_chiptemp g) (loongson_freqctrl g)
    (smp_group g) (loongson_fdt_blob g) (Some pch) (hw_coherentio g)
    (mips_cpu_frequency g) (cpu_full_name_0 g).

(** ** The environment resolver *)

(** The macro [parse_even_earlier (res, option, p)]: the new value of [res].
    An entry that is exactly the option name makes the C code read past the
    terminator; here nothing is left to parse. *)
Definition parse_even_earlier (res : Z) (option p : string) : Z :=
  if strncmp option p (strlen option) =? 0 then
    match kstrtou32 (str_plus p (strlen (option +:+ "="))) with
    | Some v => v
    | None => res
    end
  else res.

Section Env.
Context `{env_h}.

(** The end of [prom_init_env], common to both builds; [processor_id] is
    [current_cpu_data.processor_id]. *)
Definition prom_init_env_finish (processor_id : Z) (g : globals) : globals :=
  let freq :=
    if cpu_clock_freq g =? 0 then
      let rev := Z.land processor_id PRID_REV_MASK in
      if rev =? PRID_REV_LOONGSON2E then 533080000
      else if rev =? PRID_REV_LOONGSON2F then 797000000
      else if (rev =? PRID_REV_LOONGSON3A_R1) || (rev =? PRID_REV_LOONGSON3A_R2_0)
              || (rev =? PRID_REV_LOONGSON3A_R2_1) || (rev =? PRID_REV_LOONGSON3A_R3_0)
              || (rev =? PRID_REV_LOONGSON3A_R3_1) then 900000000
      else if (rev =? PRID_REV_LOONGSON3B_R1) || (rev =? PRID_REV_LOONGSON3B_R2)
           then 1000000000
      else 100000000
    else cpu_clock_freq g in
  let freq_text := " @ " +:+ pretty (u32 (freq + 500000) / 1000000) +:+ "MHz" in
  let full := strncat (cpu_full_name g) freq_text 64 in
  Globals freq (memsize g) (highmemsize g) full (loongson_sysconf g)
    (loongson_chipcfg g) (loongson_chiptemp g) (loongson_freqctrl g)
    (smp_group g) (loongson_fdt_blob g) (loongson_pch g) (hw_coherentio g)
    freq full.

(** The [while (l != 0)] loop over the PMON argument pointers; [envp] lists
    the texts before the null pointer. *)
Fixpoint prom_envp_loop (envp : list string) (g : globals) : globals :=
  match envp with
  | [] => g
  | l :: envp' =>
      let freq := parse_even_earlier (cpu_clock_freq g) "cpuclock" l in
      let mem := parse_even_earlier (memsize g) "memsize" l in
      let high := parse_even_earlier (highmemsize g) "highmemsize" l in
      prom_envp_loop envp' (set_parsed freq mem high g)
  end.

(** [prom_init_env] without [CONFIG_LEFI_FIRMWARE_INTERFACE]. *)
Definition prom_init_env_pmon (envp : list string) (processor_id : Z)
    (g : globals) : globals :=
  let g := prom_envp_loop envp g in
  let g := if memsize g =? 0
           then set_parsed (cpu_clock_freq g) 256 (highmemsize g) g else g in
  let g := set_hub dummy_pch (set_nr_uarts 1 (loongson_sysconf g)) g in
  prom_init_env_finish processor_id g.

(** The hub picked from the board name: hub, [ec_sci_irq], default blob. *)
Definition select_pch (name : string)
    : platform_controller_hub * Z * fdt_blob :=
  match strstr name "2H" with
  | Some _ => (ls2h_pch, 0x80, dtb_loongson3_ls2h_begin)
  | None =>
      match strstr name "7A" with
      | Some _ => (ls7a_pch, 0x07, dtb_loongson3_ls7a_begin)
      | None => (rs780_pch, 0x07, dtb_loongson3_rs780_begin)
      end
  end.

(** [prom_init_env] with [CONFIG_LEFI_FIRMWARE_INTERFACE] and without
    [CONFIG_KEXEC]. *)
Definition prom_init_env_lefi (boot_p : Fw.boot_params) (processor_id : Z)
    (g : globals) : globals :=
  let esys := Fw.esys boot_p in
  let ecpu := Fw.ecpu boot_p in
  let eboard := Fw.eboard boot_p in
  let eirq_source := Fw.eirq_source boot_p in
  let sc := loongson_sysconf g in
  let '(per_node, per_package, groups, chipcfg, chiptemp, freqctrl, ht_base, wa) :=
    match Fw.cputype ecpu with
    | Legacy_3A | Loongson_3A =>
        (4, 4,
         store4 0x900000003ff01000 0x900010003ff01000
                0x900020003ff01000 0x900030003ff01000 (smp_group g),
         store4 0x900000001fe00180 0x900010001fe00180
                0x900020001fe00180 0x900030001fe00180 (loongson_chipcfg g),
         store4 0x900000001fe0019c 0x900010001fe0019c
                0x900020001fe0019c 0x900030001fe0019c (loongson_chiptemp g),
         store4 0x900000001fe001d0 0x900010001fe001d0
                0x900020001fe001d0 0x900030001fe001d0 (loongson_freqctrl g),
         0x90000EFDFB000000, WORKAROUND_CPUFREQ)
    | Legacy_3B | Loongson_3B =>
        (4, 8,
         store4 0x900000003ff01000 0x900010003ff05000
                0x900020003ff09000 0x900030003ff0d000 (smp_group g),
         store4 0x900000001fe00180 0x900020001fe00180
                0x900040001fe00180 0x900060001fe00180 (loongson_chipcfg g),
         store4 0x900000001fe0019c 0x900020001fe0019c
                0x900040001fe0019c 0x900060001fe0019c (loongson_chiptemp g),
         store4 0x900000001fe001d0 0x900020001fe001d0
                0x900040001fe001d0 0x900060001fe001d0 (loongson_freqctrl g),
         0x90001EFDFB000000, WORKAROUND_CPUHOTPLUG)
    | Other_cpu_type _ =>
        (1, 1, smp_group g,
         <[0%nat := 0x900000001fe00180]> (loongson_chipcfg g),
         loongson_chiptemp g, loongson_freqctrl g,
         ht_control_base sc, workarounds sc)
    end in
  let cpus :=
    if (Fw.nr_cpus ecpu >? u32 NR_CPUS) || (Fw.nr_cpus ecpu =? 0)
    then u32 NR_CPUS else Fw.nr_cpus ecpu in
  let nodes := u32 (cpus + per_node - 1) / per_node in
  let full :=
    if strncmp (Fw.cpuname ecpu) "Loongson" 8 =? 0
    then strncpy (Fw.cpuname ecpu) 64 else cpu_full_name g in
  let full :=
    match full with
    | EmptyString => strncpy (cpu_full_name_0 g) 64
    | String _ _ => full
    end in
  let dma_bits :=
    if (Fw.dma_mask_bits eirq_source <? 32) || (Fw.dma_mask_bits eirq_source >? 64)
    then 32 else Fw.dma_mask_bits eirq_source in
  let coherent := if Fw.dma_noncoherent eirq_source =? 0 then 1 else 0 in
  let '(pch, sci_irq, blob) := select_pch (Fw.name eboard) in
  let blob :=
    if (2 <=? Fw.vers esys) && negb (Fw.of_dtb_addr esys =? 0)
    then dtb_at (Fw.of_dtb_addr esys) else blob in
  let ec := if Fw.has_ec esys =? 0 then "" else substring 0 32 (Fw.ec_name esys) in
  let n_uarts :=
    if (Fw.nr_uarts esys <? 1) || (Fw.nr_uarts esys >? MAX_UARTS)
    then 1 else Fw.nr_uarts esys in
  let n_sensors :=
    if Fw.nr_sensors esys >? MAX_SENSORS then 0 else Fw.nr_sensors esys in
  let sens :=
    if n_sensors =? 0 then sensors sc
    else memcpy (sensors sc) (Fw.sensors esys) n_sensors in
  let sc' :=
    Sysconf (Some (Fw.cputype ecpu)) per_node per_package cpus nodes
      (Fw.cpu_startup_core_id ecpu) (Fw.reserved_cores_mask ecpu) ht_base
      (Z.lor wa (Fw.workarounds esys))
      (Fw.pci_mem_start_addr eirq_source) (Fw.pci_mem_end_addr eirq_source)
      (Fw.pci_io_start_addr eirq_source) dma_bits sci_irq
      (Fw.ResetWarm boot_p) (Fw.Shutdown boot_p) (Fw.DoSuspend boot_p)
      (Fw.vga_bios boot_p) ec
      n_uarts (memcpy (uarts sc) (Fw.uarts esys) n_uarts)
      n_sensors sens in
  prom_init_env_finish processor_id
    (Globals (Fw.cpu_clock_freq ecpu) (memsize g) (highmemsize g) full sc'
       chipcfg chiptemp freqctrl groups (Some blob) (Some pch) coherent
       (mips_cpu_frequency g) (cpu_full_name_0 g)).

End Env.

(** ** Registration of the clock-event device *)

(** [loongson-pch.h], [linux/clockchips.h] and [linux/interrupt.h] are not
    part of the sources: the timer constants of each hub and the flag bits
    are parameters. *)
Class pch_h := {
  LS2H_HPET_FREQ : Z;
  LS2H_HPET_T0_IRQ : Z;
  LS2H_HPET_BASE : Z;
  LS7A_HPET_FREQ : Z;
  LS7A_HPET_T0_IRQ : Z;
  LS7A_HPET_BASE : Z;
  RS780_HPET_FREQ : Z;
  RS780_HPET_T0_IRQ : Z;
  RS780_HPET_BASE : Z;
  CLOCK_EVT_FEAT_PERIODIC : Z;
  CLOCK_EVT_FEAT_ONESHOT : Z;
  IRQF_NOBALANCING : Z;
  IRQF_TIMER : Z
}.

(** Sample values, used to run the model. *)
Definition sample_pch_h : pch_h := {|
  LS2H_HPET_FREQ := 125000000;
  LS2H_HPET_T0_IRQ := 69;
  LS2H_HPET_BASE := 0x900000001fe24000;
  LS7A_HPET_FREQ := 50000000;
  LS7A_HPET_T0_IRQ := 55;
  LS7A_HPET_BASE := 0x90000e0010001000;
  RS780_HPET_FREQ := 14318780;
  RS780_HPET_T0_IRQ := 0;
  RS780_HPET_BASE := 0x90000e0000020000;
  CLOCK_EVT_FEAT_PERIODIC := 0x1;
  CLOCK_EVT_FEAT_ONESHOT := 0x2;
  IRQF_NOBALANCING := 0x800;
  IRQF_TIMER := 0x200
|}.

(** The fields of [struct clock_event_device] the driver fills in; a null
    callback is [None]. *)
Module Cd.
Record clock_event_device (D : Type) := Make {
  name : string;
  rating : Z;
  features : Z;
  set_state_shutdown : option (M D Z);
  set_state_periodic : option (M D Z);
  set_state_oneshot : option (M D Z);
  tick_resume : option (M D Z);
  set_next_event : option (Z -> M D Z);
  irq : Z;
  cpumask : option Z;
  mult : Z;
  shift : Z;
  max_delta_ns : Z;
  max_delta_ticks : Z;
  min_delta_ns : Z;
  min_delta_ticks : Z
}.
Arguments Make {D}.
Arguments name {D}.
Arguments rating {D}.
Arguments features {D}.
Arguments set_state_shutdown {D}.
Arguments set_state_periodic {D}.
Arguments set_state_oneshot {D}.
Arguments tick_resume {D}.
Arguments set_next_event {D}.
Arguments irq {D}.
Arguments cpumask {D}.
Arguments mult {D}.
Arguments shift {D}.
Arguments max_delta_ns {D}.
Arguments max_delta_ticks {D}.
Arguments min_delta_ns {D}.
Arguments min_delta_ticks {D}.

(** A descriptor of the zero-initialised per-processor area. *)
Definition zero {D} : clock_event_device D :=
  Make "" 0 0 None None None None None 0 None 0 0 0 0 0 0.

(** Assignments to groups of fields. *)
Definition set_clock {D} (cd : clock_event_device D) (m s : Z) :=
  Make (name cd) (rating cd) (features cd) (set_state_shutdown cd)
    (set_state_periodic cd) (set_state_oneshot cd) (tick_resume cd)
    (set_next_event cd) (irq cd) (cpumask cd) m s
    (max_delta_ns cd) (max_delta_ticks cd) (min_delta_ns cd) (min_delta_ticks cd).

Definition set_max_delta {D} (cd : clock_event_device D) (ns ticks : Z) :=
  Make (name cd) (rating cd) (features cd) (set_state_shutdown cd)
    (set_state_periodic cd) (set_state_oneshot cd) (tick_resume cd)
    (set_next_event cd) (irq cd) (cpumask cd) (mult cd) (shift cd)
    ns ticks (min_delta_ns cd) (min_delta_ticks cd).

Definition set_min_delta {D} (cd : clock_event_device D) (ns ticks : Z) :=
  Make (name cd) (rating cd) (features cd) (set_state_shutdown cd)
    (set_state_periodic cd) (set_state_oneshot cd) (tick_resume cd)
    (set_next_event cd) (irq cd) (cpumask cd) (mult cd) (shift cd)
    (max_delta_ns cd) (max_delta_ticks cd) ns ticks.
End Cd.

(** [struct irqaction]. *)
Module Irq.
Record irqaction (D : Type) := Make {
  handler : M D irqreturn_t;
  flags : Z;
  name : string
}.
Arguments Make {D}.
Arguments handler {D}.
Arguments flags {D}.
Arguments name {D}.
End Irq.

(** The driver's globals beside those of [kernel], with what the clock-event
    and interrupt frameworks were handed. *)
Record hpet_driver (D : Type) := Driver {
  hpet_freq : Z;                                       (* unsigned int hpet_freq *)
  hpet_t0_irq : Z;                                     (* unsigned int hpet_t0_irq *)
  kern : kernel D;
  hpet_clockevent_device : Z -> Cd.clock_event_device D; (* per-processor *)
  registered_devices : list Z;       (* clockevents_register_device, by processor *)
  irq_actions : list (Z * Irq.irqaction D)             (* setup_irq *)
}.
Arguments Driver {D}.
Arguments hpet_freq {D}.
Arguments hpet_t0_irq {D}.
Arguments kern {D}.
Arguments hpet_clockevent_device {D}.
Arguments registered_devices {D}.
Arguments irq_actions {D}.

Section Setup.
Context {D : Type} {dev : Mmio D} {hdr : hpet_h} {hub : pch_h}.

(** Kernel code that is not part of the sources:
    [clockevents_calc_mult_shift (cd, freq, maxsec)] as the pair it stores
    into [cd->mult] and [cd->shift], [clockevent_delta2ns (latch, cd)], and
    the event handler of a processor. *)
Variable clockevents_calc_mult_shift : Cd.clock_event_device D -> Z -> Z -> Z * Z.
Variable clockevent_delta2ns : Z -> Cd.clock_event_device D -> Z.
Variable event_handler : Z -> M D unit.

(** [clockevent_set_clock] of [asm/time.h]. *)
Definition clockevent_set_clock (cd : Cd.clock_event_device D) (clock : Z)
    : Cd.clock_event_device D :=
  let '(m, s) := clockevents_calc_mult_shift cd clock 4 in
  Cd.set_clock cd m s.

Definition hpet_irq : Irq.irqaction D :=
  Irq.Make (hpet_irq_handler event_handler)
    (Z.lor IRQF_NOBALANCING IRQF_TIMER) "hpet".

(** The [switch] of [setup_hpet_timer]: frequency, interrupt, base address
    and trigger flags of the hub. *)
Definition hub_timer (type : pch_type) : Z * Z * Z * Z :=
  match type with
  | LS2H => (LS2H_HPET_FREQ, LS2H_HPET_T0_IRQ, LS2H_HPET_BASE, HPET_TN_LEVEL)
  | LS7A => (LS7A_HPET_FREQ, LS7A_HPET_T0_IRQ, LS7A_HPET_BASE, HPET_TN_LEVEL)
  | RS780E => (RS780_HPET_FREQ, RS780_HPET_T0_IRQ, RS780_HPET_BASE, 0)
  end.

Definition setup_hpet_timer (s : hpet_driver D) : hpet_driver D :=
  let k := kern s in
  let cpu := processor k in
  let '(freq, t0_irq, base, irq_flags) := hub_timer (loongson_pch_type k) in
  let freq := u32 freq in
  let t0_irq := u32 t0_irq in
  let k := Kernel (u32 irq_flags) (u64 base) (loongson_pch_type k)
             (sysconf_ht_control_base k) (processor k) (bus k) (log k) in
  let k := (hpet_setup k).2 in
  let cd := hpet_clockevent_device s cpu in
  let cd :=
    Cd.Make "hpet" 100 (Z.lor CLOCK_EVT_FEAT_PERIODIC CLOCK_EVT_FEAT_ONESHOT)
      (Some hpet_set_state_shutdown) (Some hpet_set_state_periodic)
      (Some hpet_set_state_oneshot) (Some hpet_tick_resume)
      (Some hpet_next_event) t0_irq (Some cpu)
      (Cd.mult cd) (Cd.shift cd) (Cd.max_delta_ns cd) (Cd.max_delta_ticks cd)
      (Cd.min_delta_ns cd) (Cd.min_delta_ticks cd) in
  let cd := clockevent_set_clock cd freq in
  let cd := Cd.set_max_delta cd (clockevent_delta2ns 0x7fffffff cd) 0x7fffffff in
  let cd := Cd.set_min_delta cd (clockevent_delta2ns HPET_MIN_PROG_DELTA cd)
              HPET_MIN_PROG_DELTA in
  let k := (pr_info "hpet clock event device register" k).2 in
  Driver freq t0_irq k
    (fun c => if decide (c = cpu) then cd else hpet_clockevent_device s c)
    (registered_devices s ++ [cpu])
    (irq_actions s ++ [(t0_irq, hpet_irq)]).

End Setup.

(** ** Vocabulary of the statements *)


(** A decimal numeral given by its digits, most significant first. *)
Definition digit_char (d : Z) : ascii := ascii_of_nat (Z.to_nat (48 + d)).

Fixpoint numeral (ds : list Z) : string :=
  match ds with
  | [] => EmptyString
  | d :: ds' => String (digit_char d) (numeral ds')
  end.

Definition numeral_value (ds : list Z) : Z :=
  fold_left (fun acc d => acc * 10 + d) ds 0.

Definition is_digit (d : Z) : Prop := 0 <= d < 10.

(** The entry begins with the option name, as [parse_even_earlier] tests. *)
Definition names (option entry : string) : Prop :=
  strncmp option entry (strlen option) = 0.

(** Bit [i] of a register value. *)
Definition bit (v i : Z) : bool := Z.testbit v i.

(** The word a register file holds at an address, as a load would see it. *)
Definition peek (m : gmap Z Z) (a : Z) : Z := u32 (default 0 (m !! a)).

(** The physical address of a timer register. *)
Definition hpet_reg {D} (k : kernel D) (offset : Z) : Z :=
  u64 (hpet_mmio_base k + offset).

(** The physical address of a register of the SMBus configuration space. *)
Definition smbus_reg {D} (k : kernel D) (offset : Z) : Z :=
  u64 (u64 (sysconf_ht_control_base k + 0x0300a000) + offset).

(** The part of the log a call added. *)
Definition trace_of {D A} (c : M D A) (k : kernel D) : list event :=
  drop (length (log k)) (log (c k).2).

(** A lock event of the log. *)
Definition is_lock (e : event) : bool :=
  match e with
  | SpinLock | SpinUnlock => true
  | _ => false
  end.

(** The trace takes the lock first, releases it last and never in between. *)
Definition lock_held_throughout (t : list event) : Prop :=
  exists body, t = SpinLock :: body ++ [SpinUnlock] /\
               forallb (fun e => negb (is_lock e)) body = true.

Definition lock_bracket (t : list event) : bool :=
  match t with
  | SpinLock :: rest =>
      match rev rest with
      | SpinUnlock :: body => forallb (fun e => negb (is_lock e)) (rev body)
      | _ => false
      end
  | _ => false
  end.

(** The control word [hpet_set_state_periodic] stores for an old word and
    the board's trigger flags. *)
Definition periodic_mode {hdr : hpet_h} (old flags : Z) : Z :=
  u32 (Z.lor (Z.land old (Z.lnot HPET_TN_LEVEL))
         (Z.lor (Z.lor (Z.lor (Z.lor HPET_TN_ENABLE HPET_TN_PERIODIC)
                              HPET_TN_SETVAL) HPET_TN_32BIT) flags)).

(** ** Sample inputs *)

(** A board whose counter, at offset [0x0f0] of a timer block mapped at
    [0x1000], reads 100 and gains 7 ticks per load. *)
Definition ticking_board : kernel ticking :=
  Kernel 0 0x1000 RS780E 0 0 (Ticking {[ 0x10f0 := 100 ]} 0x10f0 7) [].

(** A handler that does nothing, and a board with the timer-0 status bit
    pending, to run the interrupt path. *)
Definition idle_handler : Z -> M (gmap Z Z) unit := fun _ => mret tt.

Definition pending_board : kernel (gmap Z Z) :=
  Kernel 0 0x1000 RS780E 0 2 {[ 0x1020 := 1 ]} [].

(** A level-triggered board with a running counter and stale timer-0 mode
    bits. *)
Definition running_board : kernel (gmap Z Z) :=
  Kernel 0x0002 0x1000 LS7A 0 0
    (<[0x1010 := 1]> (<[0x10f0 := 4711]> {[ 0x1100 := 0x3006 ]})) [].

(** An RS780E board resumed with a counter that had been running. *)
Definition suspended_board : kernel (gmap Z Z) :=
  Kernel 0 0x1000 RS780E 0x90000EFDFB000000 0
    (<[0x1010 := 1]> {[ 0x10f0 := 4711 ]}) [].

(** Firmware tables of a board with the given CPU type, board name and
    reported processor, UART and sensor counts. *)
Definition sample_boot_params (type : loongson_cpu_type) (board : string)
    (cpus n_uarts n_sensors : Z) : Fw.boot_params :=
  Fw.Build_boot_params
    (Fw.Build_system_loongson 1 0 "" n_uarts
       [UartDevice [1]; UartDevice [2]] n_sensors
       [SensorDevice [7]; SensorDevice [8]] 0 0)
    (Fw.Build_efi_cpuinfo_loongson type cpus 0 0 0 "Loongson-3A2000")
    (Fw.Build_board_devices board)
    (Fw.Build_irq_source_routing_table 0 0 0 16 0)
    0 0 0 0.




(** The argument list of the scenario: 800 MHz and 512 MiB. *)
Definition scenario_envp : list string := ["cpuclock=800000000"; "memsize=512"].

(** Stand-ins for the clock-event framework, and a driver state on the
    level-triggered sample board before [setup_hpet_timer] ran. *)
Definition sample_calc_mult_shift (cd : Cd.clock_event_device (gmap Z Z))
    (freq maxsec : Z) : Z * Z := (2 ^ 32 * 1000000000 / freq, 32).

Definition sample_delta2ns (latch : Z) (cd : Cd.clock_event_device (gmap Z Z)) : Z :=
  Z.shiftl latch (Cd.shift cd) / Cd.mult cd.

Definition unset_driver : hpet_driver (gmap Z Z) :=
  Driver 0 0 running_board (fun _ => Cd.zero) [] [].



(** * Proofs *)

(** ** Integer conversions *)

Lemma u32_range x : 0 <= u32 x < 2 ^ 32.
Proof. unfold u32. apply Z.mod_pos_bound. lia. Qed.

Lemma u32_small x : 0 <= x < 2 ^ 32 -> u32 x = x.
Proof. intros Hx. unfold u32. now apply Z.mod_small. Qed.

Lemma u32_idem x : u32 (u32 x) = u32 x.
Proof. apply u32_small, u32_range. Qed.

Lemma u32_s32 x : u32 (s32 x) = u32 x.
Proof.
  unfold u32, s32.
  rewrite <- Zminus_mod_idemp_l, Z.mod_mod by lia.
  rewrite Zminus_mod_idemp_l. f_equal. lia.
Qed.

Lemma s32_cong x y : u32 x = u32 y -> s32 x = s32 y.
Proof.
  unfold u32, s32. intros Hxy.
  rewrite <- (Zplus_mod_idemp_l x), <- (Zplus_mod_idemp_l y), Hxy.
  reflexivity.
Qed.

Lemma s32_u32 x : s32 (u32 x) = s32 x.
Proof. apply s32_cong, u32_idem. Qed.

Lemma u32_add_r a b : u32 (a + u32 b) = u32 (a + b).
Proof. unfold u32. apply Zplus_mod_idemp_r. Qed.

Lemma u32_add_l a b : u32 (u32 a + b) = u32 (a + b).
Proof. unfold u32. apply Zplus_mod_idemp_l. Qed.

Lemma u32_sub_r a b : u32 (a - u32 b) = u32 (a - b).
Proof. unfold u32. apply Zminus_mod_idemp_r. Qed.

Lemma s32_range x : - 2 ^ 31 <= s32 x < 2 ^ 31.
Proof.
  unfold s32. pose proof (Z.mod_pos_bound (x + 2 ^ 31) (2 ^ 32)). lia.
Qed.

Lemma u32_bit x i : 0 <= i < 32 -> bit (u32 x) i = bit x i.
Proof. intros Hi. unfold bit, u32. apply Z.mod_pow2_bits_low. lia. Qed.

Lemma u32_bit_high x i : 32 <= i -> bit (u32 x) i = false.
Proof. intros Hi. unfold bit, u32. apply Z.mod_pow2_bits_high. lia. Qed.

Lemma s32_bit x i : 0 <= i < 32 -> bit (s32 x) i = bit x i.
Proof. intros Hi. rewrite <- (u32_bit (s32 x)), u32_s32 by lia. now apply u32_bit. Qed.

(** Two words below [2 ^ 32] with the same 32 low bits are equal. *)
Lemma u32_bits_eq x y :
  (forall i, 0 <= i < 32 -> bit (u32 x) i = bit (u32 y) i) -> u32 x = u32 y.
Proof.
  intros Hb. apply Z.bits_inj'. intros i Hi.
  destruct (Z_lt_ge_dec i 32) as [Hlt | Hge].
  - apply Hb. lia.
  - fold (bit (u32 x) i) (bit (u32 y) i). rewrite !u32_bit_high by lia. reflexivity.
Qed.

(** ** Running driver code *)

Ltac run :=
  cbv beta iota delta
    [mbind M_bind mret M_ret get emit readl writel spin_lock spin_unlock
     pr_info udelay hpet_read hpet_write hpet_start_counter hpet_stop_counter
     hpet_reset_counter hpet_restart_counter hpet_enable_legacy_int
     SMBUS_CFG_BASE smbus_read smbus_write smbus_enable with_bus
     hpet_irq_flags hpet_mmio_base loongson_pch_type sysconf_ht_control_base
     processor bus log fst snd].

Ltac lookups :=
  repeat (rewrite lookup_insert_eq
          || rewrite lookup_insert_ne by (assumption || (apply not_eq_sym; assumption)));
  cbn [default from_option id].

Lemma trace_of_app {D A} (c : M D A) (k : kernel D) (t : list event) :
  log (c k).2 = log k ++ t -> trace_of c k = t.
Proof. intros Hl. unfold trace_of. rewrite Hl. apply drop_app_length. Qed.

Section NextEvent.
Context {D : Type} {dev : Mmio D} {hdr : hpet_h}.

(** What [hpet_next_event] does, in terms of the two answers of the
    counter register. *)
Lemma hpet_next_event_run (delta : Z) (k : kernel D) (c0 c1 : Z) (d1 d2 : D) :
  mmio_load (hpet_reg k HPET_COUNTER) (bus k) = (c0, d1) ->
  mmio_load (hpet_reg k HPET_COUNTER)
    (mmio_store (hpet_reg k HPET_T0_CMP) (u32 (c0 + delta)) d1) = (c1, d2) ->
  hpet_next_event delta k =
    (if s32 (u32 (c0 + delta) - u32 c1) <? 16 then - ETIME else 0,
     with_bus k d2 [Load (hpet_reg k HPET_COUNTER) (u32 c0);
                    Store (hpet_reg k HPET_T0_CMP) (u32 (c0 + delta));
                    Load (hpet_reg k HPET_COUNTER) (u32 c1)]).
Proof.
  intros Hc0 Hc1. unfold hpet_next_event, hpet_reg in *. destruct k as [fl base ty ht cpu d l].
  run. cbn [hpet_mmio_base bus log] in *. rewrite Hc0.
  replace (u32 (u32 (s32 (u32 c0)) + u32 delta)) with (u32 (c0 + delta))
    by (now rewrite u32_s32, u32_idem, u32_add_r, u32_add_l).
  rewrite u32_idem, Hc1. cbn beta iota.
  rewrite s32_u32.
  rewrite (s32_cong (u32 (c0 + delta) - s32 (u32 c1)) (u32 (c0 + delta) - u32 c1)).
  2:{ rewrite <- u32_sub_r, u32_s32, u32_idem, u32_sub_r. reflexivity. }
  unfold HPET_MIN_CYCLES. rewrite <- !app_assoc. reflexivity.
Qed.
End NextEvent.

Example hpet_next_event_late :
  (@hpet_next_event _ _ loongson_hpet_h 20 ticking_board).1 = -62.
Proof. reflexivity. Qed.

Example hpet_next_event_in_time :
  let r := @hpet_next_event _ _ loongson_hpet_h 30 ticking_board in
  r.1 = 0 /\ tk_regs (bus r.2) !! 0x1108 = Some 130.
Proof. split; reflexivity. Qed.

(** On a board with a ticking counter the comparator register holds the
    stored value after the call, whatever the call returns. *)
Lemma hpet_next_event_comparator_holds {hdr : hpet_h} (delta : Z) (k : kernel ticking) :
  hpet_reg k HPET_T0_CMP <> tk_addr (bus k) ->
  let c0 := default 0 (tk_regs (bus k) !! hpet_reg k HPET_COUNTER) in
  tk_regs (bus (hpet_next_event delta k).2) !! hpet_reg k HPET_T0_CMP
  = Some (u32 (u32 c0 + delta)).
Proof.
  intros Hne c0.
  assert (Hc0 : mmio_load (hpet_reg k HPET_COUNTER) (bus k)
                = (c0, (mmio_load (hpet_reg k HPET_COUNTER) (bus k)).2)) by reflexivity.
  destruct (mmio_load (hpet_reg k HPET_COUNTER)
              (mmio_store (hpet_reg k HPET_T0_CMP) (u32 (c0 + delta))
                 (mmio_load (hpet_reg k HPET_COUNTER) (bus k)).2))
    as [c1 d2] eqn:Hc1.
  rewrite (hpet_next_event_run delta k c0 c1 _ d2 Hc0 Hc1).
  clear Hc0. subst c0.
  destruct k as [fl base ty ht cpu [regs addr rate] l].
  unfold hpet_reg in *. cbn in Hne, Hc1 |- *.
  injection Hc1 as _ <-. rewrite u32_add_l.
  repeat case_decide; cbn [tk_regs tk_addr tk_rate] in *;
    try congruence; subst; lookups; reflexivity.
Qed.

(** C1: [hpet_next_event] stores counter + delta (in 32 bits) into the
    timer-0 comparator, reads the counter again, and returns [-ETIME] exactly
    when the signed 32-bit difference between the stored value and the second
    reading is below 16; otherwise it returns 0. Either way the device is
    left as the comparator store followed by the second counter load leave
    it, and nothing else is accessed. *)
Theorem hpet_next_event_too_late {D} {dev : Mmio D} {hdr : hpet_h}
    (delta : Z) (k : kernel D) (c0 c1 : Z) (d1 d2 : D) :
  0 < ETIME ->
  mmio_load (hpet_reg k HPET_COUNTER) (bus k) = (c0, d1) ->
  let written := u32 (u32 c0 + delta) in
  mmio_load (hpet_reg k HPET_COUNTER)
    (mmio_store (hpet_reg k HPET_T0_CMP) written d1) = (c1, d2) ->
  let margin := s32 (written - u32 c1) in
  let r := hpet_next_event delta k in
  (r.1 = - ETIME <-> margin < 16) /\
  (r.1 = 0 <-> 16 <= margin) /\
  trace_of (hpet_next_event delta) k =
    [Load (hpet_reg k HPET_COUNTER) (u32 c0);
     Store (hpet_reg k HPET_T0_CMP) written;
     Load (hpet_reg k HPET_COUNTER) (u32 c1)] /\
  bus r.2 = d2.
Proof.
  intros Hpos Hc0 written Hc1 margin r.
  assert (Hw : written = u32 (c0 + delta)) by apply u32_add_l.
  subst r. unfold trace_of.
  rewrite (hpet_next_event_run delta k c0 c1 d1 d2 Hc0) by (now rewrite <- Hw).
  rewrite <- Hw. fold margin. cbn [fst snd].
  split; [| split; [| split]].
  - destruct (Z.ltb_spec margin 16); lia.
  - destruct (Z.ltb_spec margin 16); lia.
  - destruct k; cbn. apply drop_app_length.
  - destruct k; reflexivity.
Qed.

Lemma hpet_next_event_too_late_witness :
  let r := @hpet_next_event ticking _ loongson_hpet_h 20 ticking_board in
  0 < 62 /\
  (r.1 = - 62 <-> s32 (120 - 107) < 16) /\
  (r.1 = 0 <-> 16 <= s32 (120 - 107)) /\
  trace_of (@hpet_next_event ticking _ loongson_hpet_h 20) ticking_board =
    [Load 0x10f0 100; Store 0x1108 120; Load 0x10f0 107] /\
  bus r.2 = Ticking (<[0x1108 := 120]> {[ 0x10f0 := 114 ]}) 0x10f0 7.
Proof.
  split; [reflexivity |].
  exact (@hpet_next_event_too_late ticking _ loongson_hpet_h 20 ticking_board
           100 107
           (Ticking {[ 0x10f0 := 107 ]} 0x10f0 7)
           (Ticking (<[0x1108 := 120]> {[ 0x10f0 := 114 ]}) 0x10f0 7)
           eq_refl eq_refl eq_refl).
Defined.

(** C10: the delta of [hpet_next_event] only counts modulo [2 ^ 32]: the
    value stored into the comparator is (counter + delta) mod [2 ^ 32], and
    the call behaves as the call with the truncated delta. *)
Theorem hpet_next_event_delta_truncated {D} {dev : Mmio D} {hdr : hpet_h}
    (delta : Z) (k : kernel D) :
  let cnt := u32 (mmio_load (hpet_reg k HPET_COUNTER) (bus k)).1 in
  (exists now : Z,
     trace_of (hpet_next_event delta) k =
       [Load (hpet_reg k HPET_COUNTER) cnt;
        Store (hpet_reg k HPET_T0_CMP) ((cnt + delta) mod 2 ^ 32);
        Load (hpet_reg k HPET_COUNTER) now]) /\
  hpet_next_event (delta mod 2 ^ 32) k = hpet_next_event delta k.
Proof.
  destruct (mmio_load (hpet_reg k HPET_COUNTER) (bus k)) as [c0 d1] eqn:Hc0.
  cbn [fst]. split.
  - destruct (mmio_load (hpet_reg k HPET_COUNTER)
                (mmio_store (hpet_reg k HPET_T0_CMP) (u32 (c0 + delta)) d1))
      as [c1 d2] eqn:Hc1.
    exists (u32 c1). apply trace_of_app.
    rewrite (hpet_next_event_run delta k c0 c1 d1 d2 Hc0 Hc1).
    fold (u32 (u32 c0 + delta)). rewrite u32_add_l. destruct k; reflexivity.
  - fold (u32 delta).
    destruct (mmio_load (hpet_reg k HPET_COUNTER)
                (mmio_store (hpet_reg k HPET_T0_CMP) (u32 (c0 + delta)) d1))
      as [c1 d2] eqn:Hc1.
    rewrite (hpet_next_event_run delta k c0 c1 d1 d2 Hc0 Hc1).
    rewrite (hpet_next_event_run (u32 delta) k c0 c1 d1 d2 Hc0)
      by (now rewrite u32_add_r).
    now rewrite u32_add_r.
Qed.

(** ** Bits of the control words *)

Lemma land_s32 x m : 0 <= m < 2 ^ 32 -> Z.land (s32 x) m = Z.land (u32 x) m.
Proof.
  intros Hm. apply Z.bits_inj'. intros i Hi. rewrite !Z.land_spec.
  destruct (Z_lt_ge_dec i 32) as [Hlt | Hge].
  - fold (bit (s32 x) i) (bit (u32 x) i).
    rewrite s32_bit, u32_bit by lia. reflexivity.
  - replace (Z.testbit m i) with false; [now rewrite !andb_false_r |].
    symmetry. fold (bit m i). rewrite <- (u32_small m Hm). apply u32_bit_high. lia.
Qed.

(** [cfg &= ~mask] on an [int] read from a register, as stored back. *)
Lemma clear_bits_spec v mask i :
  0 <= i < 32 ->
  bit (u32 (s32 (Z.land (s32 (u32 v)) (Z.lnot mask)))) i
  = bit v i && negb (bit mask i).
Proof.
  intros Hi. rewrite u32_s32, u32_bit by lia. unfold bit.
  rewrite Z.land_spec, Z.lnot_spec by lia.
  fold (bit (s32 (u32 v)) i). rewrite s32_bit, u32_bit by lia. reflexivity.
Qed.

Section Shutdown.
Context {hdr : hpet_h}.

Lemma hpet_set_state_shutdown_run (k : kernel (gmap Z Z)) :
  let a := hpet_reg k HPET_T0_CFG in
  let w := u32 (s32 (Z.land (s32 (peek (bus k) a)) (Z.lnot HPET_TN_ENABLE))) in
  hpet_set_state_shutdown k =
    (0, with_bus k (<[a := w]> (bus k))
          [SpinLock; Load a (peek (bus k) a); Store a w; SpinUnlock]).
Proof.
  destruct k as [fl base ty ht cpu m l]. unfold hpet_set_state_shutdown, hpet_reg, peek.
  run. cbn [mmio_load mmio_store regfile_mmio bus hpet_mmio_base].
  rewrite <- !app_assoc. reflexivity.
Qed.
End Shutdown.

(** C9: on latched registers, [hpet_set_state_shutdown] applied twice leaves
    the registers as one application does, and one application changes
    nothing but the timer-0 control word, in which it clears the bits of
    [HPET_TN_ENABLE] and keeps every other bit. *)
Theorem hpet_set_state_shutdown_idempotent {hdr : hpet_h} (k : kernel (gmap Z Z)) :
  let once := (hpet_set_state_shutdown k).2 in
  let twice := (hpet_set_state_shutdown once).2 in
  let a := hpet_reg k HPET_T0_CFG in
  bus twice = bus once /\
  (forall b, b <> a -> bus once !! b = bus k !! b) /\
  (forall i, 0 <= i < 32 ->
     bit (peek (bus once) a) i = bit (peek (bus k) a) i && negb (bit HPET_TN_ENABLE i)).
Proof.
  intros once twice a. subst twice once.
  rewrite (hpet_set_state_shutdown_run k). cbn [snd].
  rewrite hpet_set_state_shutdown_run. cbn [snd].
  destruct k as [fl base ty ht cpu m l]. unfold hpet_reg in *. cbn in a |- *.
  fold a. split; [| split].
  - rewrite insert_insert_eq. f_equal.
    unfold peek. rewrite !lookup_insert_eq. cbn [default from_option id].
    apply u32_bits_eq. intros i Hi.
    rewrite !clear_bits_spec by lia.
    now destruct (bit _ i), (bit HPET_TN_ENABLE i).
  - intros b Hb. now rewrite lookup_insert_ne.
  - intros i Hi. unfold peek at 1. rewrite lookup_insert_eq.
    cbn [default from_option id].
    rewrite u32_idem. unfold peek. rewrite clear_bits_spec by lia.
    now rewrite u32_bit.
Qed.

(** C3: with [v] the word the status register answers, [hpet_irq_handler]
    returns [IRQ_NONE] after that single load, storing nothing, when the
    timer-0 bit of [v] is clear; when it is set, the handler stores
    [HPET_T0_IRS] to the status register once, then runs the event handler of
    the current processor on the state so reached, and returns
    [IRQ_HANDLED] with whatever state the event handler leaves. *)
Theorem hpet_irq_handler_ack_first {D} {dev : Mmio D} {hdr : hpet_h}
    (event_handler : Z -> M D unit) (k : kernel D) (v : Z) (d1 : D) :
  0 <= HPET_T0_IRS < 2 ^ 32 ->
  mmio_load (hpet_reg k HPET_STATUS) (bus k) = (v, d1) ->
  let status := hpet_reg k HPET_STATUS in
  hpet_irq_handler event_handler k =
    if Z.land (u32 v) HPET_T0_IRS =? 0
    then (IRQ_NONE, with_bus k d1 [Load status (u32 v)])
    else (IRQ_HANDLED,
          (event_handler (processor k)
             (with_bus k (mmio_store status HPET_T0_IRS d1)
                [Load status (u32 v); Store status HPET_T0_IRS;
                 EventHandler (processor k)])).2).
Proof.
  intros Hirs Hv status. subst status. unfold hpet_irq_handler, hpet_reg in *.
  destruct k as [fl base ty ht cpu d l]. run. cbn [bus hpet_mmio_base] in Hv.
  rewrite Hv. rewrite land_s32, u32_idem by exact Hirs.
  destruct (Z.land (u32 v) HPET_T0_IRS =? 0); cbn [negb].
  - reflexivity.
  - rewrite (u32_small HPET_T0_IRS Hirs). rewrite <- !app_assoc. cbn [app].
    destruct (event_handler cpu _) as [[] k']. reflexivity.
Qed.

Lemma hpet_irq_handler_ack_first_witness :
  0 <= 1 < 2 ^ 32 /\
  @hpet_irq_handler _ _ loongson_hpet_h idle_handler pending_board =
    (IRQ_HANDLED,
     Kernel 0 0x1000 RS780E 0 2 {[ 0x1020 := 1 ]}
       [Load 0x1020 1; Store 0x1020 1; EventHandler 2]).
Proof.
  split; [lia |].
  exact (@hpet_irq_handler_ack_first _ _ loongson_hpet_h idle_handler
           pending_board 1 {[ 0x1020 := 1 ]} ltac:(cbn; lia) eq_refl).
Defined.

(** [cfg |= mask] on an [int], as stored back. *)
Lemma set_bits_spec x mask i :
  0 <= i < 32 ->
  bit (u32 (s32 (Z.lor (s32 x) mask))) i = bit x i || bit mask i.
Proof.
  intros Hi. rewrite u32_s32, u32_bit by lia. unfold bit.
  rewrite Z.lor_spec. fold (bit (s32 x) i). now rewrite s32_bit.
Qed.

Lemma NoDup5 (a b c d e : Z) :
  NoDup [a; b; c; d; e] ->
  (a <> b /\ a <> c /\ a <> d /\ a <> e) /\ (b <> c /\ b <> d /\ b <> e) /\
  (c <> d /\ c <> e) /\ d <> e.
Proof.
  rewrite !NoDup_cons, !not_elem_of_cons. intros Hnd.
  repeat split; intros ->; tauto.
Qed.

Lemma periodic_word t lvl f :
  u32 (s32 (Z.lor (s32 (Z.land (s32 (u32 t)) (Z.lnot lvl))) f))
  = u32 (Z.lor (Z.land (u32 t) (Z.lnot lvl)) f).
Proof.
  apply u32_bits_eq. intros i Hi.
  rewrite set_bits_spec, u32_bit by lia. unfold bit.
  rewrite Z.lor_spec, !Z.land_spec. fold (bit (s32 (u32 t)) i).
  now rewrite s32_bit.
Qed.

Section Periodic.
Context {hdr : hpet_h}.

Lemma hpet_set_state_periodic_run (k : kernel (gmap Z Z)) :
  let cfg := hpet_reg k HPET_CFG in
  let cnt := hpet_reg k HPET_COUNTER in
  let cnt_hi := hpet_reg k (HPET_COUNTER + 4) in
  let t0_cfg := hpet_reg k HPET_T0_CFG in
  let t0_cmp := hpet_reg k HPET_T0_CMP in
  NoDup [cfg; cnt; cnt_hi; t0_cfg; t0_cmp] ->
  let stopped := u32 (Z.land (peek (bus k) cfg) (Z.lnot HPET_CFG_ENABLE)) in
  let mode :=
    u32 (Z.lor (Z.land (peek (bus k) t0_cfg) (Z.lnot HPET_TN_LEVEL))
           (Z.lor (Z.lor (Z.lor (Z.lor HPET_TN_ENABLE HPET_TN_PERIODIC)
                                HPET_TN_SETVAL) HPET_TN_32BIT)
                  (hpet_irq_flags k))) in
  let started := u32 (Z.lor stopped HPET_CFG_ENABLE) in
  hpet_set_state_periodic k =
    (0, with_bus k
          (<[cfg := started]> (<[t0_cmp := u32 HPET_COMPARE_VAL]>
             (<[t0_cmp := u32 HPET_COMPARE_VAL]> (<[t0_cfg := mode]>
                (<[t0_cmp := 0]> (<[cnt_hi := 0]> (<[cnt := 0]>
                   (<[cfg := stopped]> (bus k)))))))))
          [SpinLock; PrInfo "set clock event to periodic mode!";
           Load cfg (peek (bus k) cfg); Store cfg stopped;
           Store cnt 0; Store cnt_hi 0; Store t0_cmp 0;
           Load t0_cfg (peek (bus k) t0_cfg); Store t0_cfg mode;
           Store t0_cmp (u32 HPET_COMPARE_VAL); Udelay 1;
           Store t0_cmp (u32 HPET_COMPARE_VAL);
           Load cfg stopped; Store cfg started; SpinUnlock]).
Proof.
  intros cfg cnt cnt_hi t0_cfg t0_cmp Hnd stopped mode started.
  apply NoDup5 in Hnd as ((? & ? & ? & ?) & (? & ? & ?) & (? & ?) & ?).
  destruct k as [fl base ty ht cpu m l].
  unfold hpet_set_state_periodic, hpet_reg, peek in *.
  run. cbn [mmio_load mmio_store regfile_mmio bus hpet_mmio_base hpet_irq_flags] in *.
  fold cfg cnt cnt_hi t0_cfg t0_cmp.
  lookups. change (u32 0) with 0.
  rewrite periodic_word, !u32_s32, !u32_idem.
  fold stopped. fold mode. fold started.
  rewrite <- !app_assoc. reflexivity.
Qed.
End Periodic.

(** C2: on latched registers at pairwise distinct addresses,
    [hpet_set_state_periodic] returns 0 and leaves the timer-0 control word
    equal to its previous value with the level bit cleared and then ORed with
    enable, periodic, set-value, 32-bit and the board's IRQ flags; it stores
    [HPET_COMPARE_VAL] to the comparator twice with [udelay (1)] in between;
    the counter is stopped before it is zeroed and enabled again at the end,
    so both counter words hold 0 and the configuration word has the enable
    bit. No other register changes. *)
Theorem hpet_set_state_periodic_spec {hdr : hpet_h} (k : kernel (gmap Z Z)) :
  let cfg := hpet_reg k HPET_CFG in
  let cnt := hpet_reg k HPET_COUNTER in
  let cnt_hi := hpet_reg k (HPET_COUNTER + 4) in
  let t0_cfg := hpet_reg k HPET_T0_CFG in
  let t0_cmp := hpet_reg k HPET_T0_CMP in
  NoDup [cfg; cnt; cnt_hi; t0_cfg; t0_cmp] ->
  let r := hpet_set_state_periodic k in
  let stopped := u32 (Z.land (peek (bus k) cfg) (Z.lnot HPET_CFG_ENABLE)) in
  let started := u32 (Z.lor stopped HPET_CFG_ENABLE) in
  let old := peek (bus k) t0_cfg in
  let mode := peek (bus r.2) t0_cfg in
  r.1 = 0 /\
  mode = u32 (Z.lor (Z.land old (Z.lnot HPET_TN_LEVEL))
                (Z.lor (Z.lor (Z.lor (Z.lor HPET_TN_ENABLE HPET_TN_PERIODIC)
                                     HPET_TN_SETVAL) HPET_TN_32BIT)
                       (hpet_irq_flags k))) /\
  (forall i, 0 <= i < 32 ->
     bit mode i = (bit old i && negb (bit HPET_TN_LEVEL i))
                  || bit HPET_TN_ENABLE i || bit HPET_TN_PERIODIC i
                  || bit HPET_TN_SETVAL i || bit HPET_TN_32BIT i
                  || bit (hpet_irq_flags k) i) /\
  trace_of hpet_set_state_periodic k =
    [SpinLock; PrInfo "set clock event to periodic mode!";
     Load cfg (peek (bus k) cfg); Store cfg stopped;
     Store cnt 0; Store cnt_hi 0; Store t0_cmp 0;
     Load t0_cfg old; Store t0_cfg mode;
     Store t0_cmp (u32 HPET_COMPARE_VAL); Udelay 1;
     Store t0_cmp (u32 HPET_COMPARE_VAL);
     Load cfg stopped; Store cfg started; SpinUnlock] /\
  peek (bus r.2) t0_cmp = u32 HPET_COMPARE_VAL /\
  peek (bus r.2) cnt = 0 /\
  peek (bus r.2) cnt_hi = 0 /\
  peek (bus r.2) cfg = started /\
  (forall i, 0 <= i < 32 ->
     bit started i = bit (peek (bus k) cfg) i || bit HPET_CFG_ENABLE i) /\
  (forall b, b ∉ [cfg; cnt; cnt_hi; t0_cfg; t0_cmp] -> bus r.2 !! b = bus k !! b).
Proof.
  intros cfg cnt cnt_hi t0_cfg t0_cmp Hnd r stopped started old mode.
  pose proof (hpet_set_state_periodic_run k Hnd) as Hrun.
  cbv zeta in Hrun. fold cfg cnt cnt_hi t0_cfg t0_cmp in Hrun.
  fold stopped in Hrun. fold started in Hrun. fold old in Hrun.
  apply NoDup5 in Hnd as ((? & ? & ? & ?) & (? & ? & ?) & (? & ?) & ?).
  assert (Hmode : mode = u32 (Z.lor (Z.land old (Z.lnot HPET_TN_LEVEL))
                (Z.lor (Z.lor (Z.lor (Z.lor HPET_TN_ENABLE HPET_TN_PERIODIC)
                                     HPET_TN_SETVAL) HPET_TN_32BIT)
                       (hpet_irq_flags k)))).
  { subst mode r. rewrite Hrun. destruct k; cbn [snd with_bus bus].
    unfold peek at 1. lookups. now rewrite u32_idem. }
  split; [subst r; now rewrite Hrun |].
  split; [exact Hmode |].
  split.
  { intros i Hi. rewrite Hmode, u32_bit by lia. unfold bit.
    now rewrite !Z.lor_spec, Z.land_spec, Z.lnot_spec, !orb_assoc by lia. }
  split.
  { apply trace_of_app. rewrite Hrun, <- Hmode. destruct k; reflexivity. }
  subst r. rewrite Hrun. destruct k as [fl base ty ht cpu m l]. cbn [snd with_bus bus] in *.
  unfold peek at 1 2 3 4. lookups.
  split; [apply u32_idem |].
  split; [reflexivity |].
  split; [reflexivity |].
  split; [apply u32_idem |].
  split.
  { intros i Hi. unfold started, stopped. rewrite !u32_bit by lia. unfold bit.
    rewrite Z.lor_spec, u32_bit, Z.land_spec, Z.lnot_spec by lia.
    unfold bit. now destruct (Z.testbit _ i), (Z.testbit HPET_CFG_ENABLE i). }
  intros b Hb. rewrite !not_elem_of_cons in Hb.
  destruct Hb as (? & ? & ? & ? & ? & _). lookups. reflexivity.
Qed.

Lemma hpet_set_state_periodic_spec_witness :
  NoDup [0x1010; 0x10f0; 0x10f4; 0x1100; 0x1108] /\
  let r := @hpet_set_state_periodic _ _ loongson_hpet_h running_board in
  r.1 = 0 /\
  peek (bus r.2) 0x1100 = 0x314e /\
  peek (bus r.2) 0x1108 = 57275 /\
  peek (bus r.2) 0x10f0 = 0 /\
  peek (bus r.2) 0x1010 = 1.
Proof.
  assert (Hnd : NoDup [0x1010; 0x10f0; 0x10f4; 0x1100; 0x1108])
    by (apply (bool_decide_unpack _); vm_compute; exact I).
  split; [exact Hnd |].
  destruct (@hpet_set_state_periodic_spec loongson_hpet_h running_board Hnd)
    as (Hret & Hmode & _ & _ & Hcmp & Hcnt & _ & Hcfg & _).
  exact (conj Hret (conj Hmode (conj Hcmp (conj Hcnt Hcfg)))).
Defined.

Section Resume.
Context {hdr : hpet_h}.

Lemma hpet_restart_counter_run (k : kernel (gmap Z Z)) :
  let cfg := hpet_reg k HPET_CFG in
  let cnt := hpet_reg k HPET_COUNTER in
  let cnt_hi := hpet_reg k (HPET_COUNTER + 4) in
  NoDup [cfg; cnt; cnt_hi] ->
  let stopped := u32 (Z.land (peek (bus k) cfg) (Z.lnot HPET_CFG_ENABLE)) in
  let started := u32 (Z.lor stopped HPET_CFG_ENABLE) in
  hpet_restart_counter k =
    (tt, with_bus k
           (<[cfg := started]> (<[cnt_hi := 0]> (<[cnt := 0]>
              (<[cfg := stopped]> (bus k)))))
           [Load cfg (peek (bus k) cfg); Store cfg stopped;
            Store cnt 0; Store cnt_hi 0;
            Load cfg stopped; Store cfg started]).
Proof.
  intros cfg cnt cnt_hi Hnd stopped started.
  rewrite !NoDup_cons, !not_elem_of_cons in Hnd.
  destruct Hnd as ((? & ? & _) & (? & _) & _).
  destruct k as [fl base ty ht cpu m l].
  unfold hpet_restart_counter, hpet_reg, peek in *.
  run. cbn [mmio_load mmio_store regfile_mmio bus hpet_mmio_base] in *.
  fold cfg cnt cnt_hi. lookups. change (u32 0) with 0.
  rewrite !u32_s32, !u32_idem. fold stopped. fold started.
  rewrite <- !app_assoc. reflexivity.
Qed.

Lemma hpet_setup_run (k : kernel (gmap Z Z)) :
  let base_reg := smbus_reg k SMBUS_PCI_REGB4 in
  let decode_reg := smbus_reg k SMBUS_PCI_REG40 in
  let irq_reg := smbus_reg k SMBUS_PCI_REG64 in
  let m1 := <[base_reg := u32 HPET_ADDR]> (bus k) in
  let decode := u32 (Z.lor (peek m1 decode_reg) (Z.shiftl 1 28)) in
  let m2 := <[decode_reg := decode]> m1 in
  let irq := u32 (Z.lor (peek m2 irq_reg) (Z.shiftl 1 10)) in
  hpet_setup k =
    (tt, match loongson_pch_type k with
         | RS780E =>
             with_bus k (<[irq_reg := irq]> m2)
               [Store base_reg (u32 HPET_ADDR);
                Load decode_reg (peek m1 decode_reg); Store decode_reg decode;
                Load irq_reg (peek m2 irq_reg); Store irq_reg irq]
         | _ => k
         end).
Proof.
  destruct k as [fl base [] ht cpu m l]; try reflexivity.
  unfold hpet_setup, smbus_reg, peek. run.
  cbn [mmio_load mmio_store regfile_mmio].
  rewrite !u32_idem, <- !app_assoc. reflexivity.
Qed.
End Resume.

(** C6: [hpet_suspend] changes nothing. On latched registers [hpet_resume]
    first does what [hpet_setup] does (on an RS780E hub the three bridge
    fixups, otherwise nothing), then clears the counter enable bit, stores 0
    to both counter words and sets the enable bit again: whatever the counter
    held, it holds 0 afterwards with the counter enabled. *)
Theorem hpet_resume_restarts_counter {hdr : hpet_h} (k : kernel (gmap Z Z)) :
  let cfg := hpet_reg k HPET_CFG in
  let cnt := hpet_reg k HPET_COUNTER in
  let cnt_hi := hpet_reg k (HPET_COUNTER + 4) in
  NoDup [cfg; cnt; cnt_hi] ->
  let s := (hpet_setup k).2 in
  let r := (hpet_resume k).2 in
  let stopped := u32 (Z.land (peek (bus s) cfg) (Z.lnot HPET_CFG_ENABLE)) in
  let started := u32 (Z.lor stopped HPET_CFG_ENABLE) in
  hpet_suspend k = (tt, k) /\
  (loongson_pch_type k <> RS780E -> s = k) /\
  (loongson_pch_type k = RS780E ->
     exists decode_old decode irq_old irq,
       trace_of hpet_setup k =
         [Store (smbus_reg k SMBUS_PCI_REGB4) (u32 HPET_ADDR);
          Load (smbus_reg k SMBUS_PCI_REG40) decode_old;
          Store (smbus_reg k SMBUS_PCI_REG40) decode;
          Load (smbus_reg k SMBUS_PCI_REG64) irq_old;
          Store (smbus_reg k SMBUS_PCI_REG64) irq]
       /\ decode = u32 (Z.lor decode_old (Z.shiftl 1 28))
       /\ irq = u32 (Z.lor irq_old (Z.shiftl 1 10))) /\
  trace_of hpet_resume k =
    trace_of hpet_setup k ++
    [Load cfg (peek (bus s) cfg); Store cfg stopped;
     Store cnt 0; Store cnt_hi 0;
     Load cfg stopped; Store cfg started] /\
  peek (bus r) cnt = 0 /\
  peek (bus r) cnt_hi = 0 /\
  peek (bus r) cfg = started /\
  (forall i, 0 <= i < 32 ->
     bit started i = bit (peek (bus s) cfg) i || bit HPET_CFG_ENABLE i) /\
  (forall b, b ∉ [cfg; cnt; cnt_hi] -> bus r !! b = bus s !! b).
Proof.
  intros cfg cnt cnt_hi Hnd s r stopped started.
  assert (Hbase : hpet_mmio_base s = hpet_mmio_base k).
  { subst s. rewrite hpet_setup_run. now destruct k as [? ? [] ? ? ? ?]. }
  assert (Hlog : exists t, log s = log k ++ t /\ trace_of hpet_setup k = t).
  { subst s. unfold trace_of. rewrite hpet_setup_run. cbn [snd].
    destruct k as [? ? [] ? ? ? l]; cbn [log with_bus loongson_pch_type]; eexists;
      (split; [try reflexivity | ]).
    - symmetry; apply app_nil_r.
    - now rewrite drop_all.
    - symmetry; apply app_nil_r.
    - now rewrite drop_all.
    - now rewrite drop_app_length. }
  destruct Hlog as (t & Hlog & Ht).
  assert (Hrun : hpet_resume k = hpet_restart_counter s).
  { subst s. unfold hpet_resume. cbv [mbind M_bind].
    now destruct (hpet_setup k) as [[] k']. }
  assert (Hnd' : NoDup [hpet_reg s HPET_CFG; hpet_reg s HPET_COUNTER;
                        hpet_reg s (HPET_COUNTER + 4)])
    by (unfold hpet_reg; rewrite Hbase; exact Hnd).
  pose proof (hpet_restart_counter_run s Hnd') as Hrestart. cbv zeta in Hrestart.
  unfold hpet_reg in Hrestart. rewrite Hbase in Hrestart.
  fold (hpet_reg k HPET_CFG) (hpet_reg k HPET_COUNTER)
       (hpet_reg k (HPET_COUNTER + 4)) in Hrestart.
  fold cfg cnt cnt_hi in Hrestart. fold stopped in Hrestart. fold started in Hrestart.
  rewrite !NoDup_cons, !not_elem_of_cons in Hnd.
  destruct Hnd as ((? & ? & _) & (? & _) & _).
  split; [reflexivity |].
  split.
  { intros Hty. subst s. rewrite hpet_setup_run. now destruct k as [? ? [] ? ? ? ?]. }
  split.
  { intros Hty. do 4 eexists. split; [| split; reflexivity].
    apply trace_of_app. rewrite hpet_setup_run. cbn [snd]. rewrite Hty.
    destruct k; reflexivity. }
  split.
  { rewrite Ht. apply trace_of_app. rewrite Hrun, Hrestart. cbn [snd].
    destruct s; cbn [with_bus log] in *. rewrite Hlog. now rewrite <- app_assoc. }
  subst r. rewrite Hrun, Hrestart. destruct s as [fl base ty ht cpu m l].
  cbn [snd with_bus bus] in *.
  unfold peek at 1 2 3. lookups.
  split; [reflexivity |].
  split; [reflexivity |].
  split; [apply u32_idem |].
  split.
  { intros i Hi. unfold started, stopped. rewrite !u32_bit by lia. unfold bit.
    rewrite Z.lor_spec, u32_bit, Z.land_spec, Z.lnot_spec by lia.
    unfold bit. now destruct (Z.testbit _ i), (Z.testbit HPET_CFG_ENABLE i). }
  intros b Hb. rewrite !not_elem_of_cons in Hb.
  destruct Hb as (? & ? & ? & _). lookups. reflexivity.
Qed.

Lemma hpet_resume_restarts_counter_witness :
  NoDup [0x1010; 0x10f0; 0x10f4] /\
  let r := (@hpet_resume _ _ loongson_hpet_h suspended_board).2 in
  trace_of (@hpet_resume _ _ loongson_hpet_h) suspended_board =
    [Store 0x90000EFDFE00A0B4 0x20000;
     Load 0x90000EFDFE00A040 0; Store 0x90000EFDFE00A040 0x10000000;
     Load 0x90000EFDFE00A064 0; Store 0x90000EFDFE00A064 0x400;
     Load 0x1010 1; Store 0x1010 0; Store 0x10f0 0; Store 0x10f4 0;
     Load 0x1010 0; Store 0x1010 1] /\
  peek (bus r) 0x10f0 = 0 /\
  peek (bus r) 0x1010 = 1.
Proof.
  assert (Hnd : NoDup [0x1010; 0x10f0; 0x10f4])
    by (apply (bool_decide_unpack _); vm_compute; exact I).
  split; [exact Hnd |].
  destruct (@hpet_resume_restarts_counter loongson_hpet_h suspended_board Hnd)
    as (_ & _ & _ & Htrace & Hcnt & _ & Hcfg & _).
  exact (conj Htrace (conj Hcnt Hcfg)).
Defined.

(** ** The LEFI resolver *)





(** ** C strings *)










(** ** The PMON resolver *)

Lemma digit_cases d : is_digit d ->
  d = 0 \/ d = 1 \/ d = 2 \/ d = 3 \/ d = 4 \/ d = 5 \/ d = 6 \/ d = 7 \/ d = 8 \/ d = 9.
Proof. unfold is_digit. lia. Qed.

Lemma digit_of_digit_char d : is_digit d -> digit_of (digit_char d) = Some d.
Proof.
  intros Hd. apply digit_cases in Hd.
  repeat (destruct Hd as [-> | Hd]; [reflexivity |]). now subst.
Qed.

Lemma parse_integer_numeral ds acc seen :
  Forall is_digit ds ->
  parse_integer (numeral ds) acc seen =
    (fold_left (fun a d => a * 10 + d) ds acc, EmptyString,
     match ds with [] => seen | _ :: _ => true end).
Proof.
  intros Hds. revert acc seen.
  induction Hds as [| d ds Hd Hds IH]; intros acc seen; [reflexivity |].
  cbn [numeral parse_integer fold_left]. rewrite digit_of_digit_char by exact Hd.
  rewrite IH. now destruct ds.
Qed.

Lemma kstrtou32_numeral ds :
  ds <> [] -> Forall is_digit ds -> numeral_value ds < 2 ^ 32 ->
  kstrtou32 (numeral ds) = Some (numeral_value ds).
Proof.
  intros Hne Hds Hv. destruct ds as [| d ds]; [contradiction |].
  pose proof (parse_integer_numeral (d :: ds) 0 false Hds) as Hp.
  assert (Hplus : match numeral (d :: ds) with
                  | String "+"%char rest => rest
                  | _ => numeral (d :: ds)
                  end = numeral (d :: ds)).
  { apply Forall_cons in Hds as [Hd _]. apply digit_cases in Hd.
    repeat (destruct Hd as [-> | Hd]; [reflexivity |]). now subst. }
  unfold kstrtou32. rewrite Hplus, Hp. cbn [negb].
  fold (numeral_value (d :: ds)).
  destruct (Z.ltb_spec (numeral_value (d :: ds)) (2 ^ 32)); [reflexivity | lia].
Qed.

Lemma parse_cpuclock res ds :
  ds <> [] -> Forall is_digit ds -> numeral_value ds < 2 ^ 32 ->
  parse_even_earlier res "cpuclock" ("cpuclock=" +:+ numeral ds) = numeral_value ds.
Proof.
  intros Hne Hds Hv. unfold parse_even_earlier.
  change (strncmp "cpuclock" ("cpuclock=" +:+ numeral ds) (strlen "cpuclock") =? 0)
    with true.
  change (str_plus ("cpuclock=" +:+ numeral ds) (strlen ("cpuclock" +:+ "=")))
    with (numeral ds).
  cbv iota. now rewrite kstrtou32_numeral.
Qed.

Lemma parse_other res option p :
  strncmp option p (strlen option) <> 0 -> parse_even_earlier res option p = res.
Proof.
  intros Hne. unfold parse_even_earlier.
  now destruct (Z.eqb_spec (strncmp option p (strlen option)) 0).
Qed.

Section Pmon.
Context {cfg : env_h}.

Lemma prom_envp_loop_app a b g :
  prom_envp_loop (a ++ b) g = prom_envp_loop b (prom_envp_loop a g).
Proof. revert g. induction a as [| e a IH]; intros g; [reflexivity | apply IH]. Qed.

Lemma prom_envp_loop_keeps_freq envp g :
  Forall (fun e => ~ names "cpuclock" e) envp ->
  cpu_clock_freq (prom_envp_loop envp g) = cpu_clock_freq g.
Proof.
  intros Hno. revert g. induction Hno as [| e envp He Hno IH]; intros g; [reflexivity |].
  cbn [prom_envp_loop]. rewrite IH. cbn [set_parsed cpu_clock_freq].
  now apply parse_other.
Qed.

Lemma prom_envp_loop_keeps_memsize envp g :
  Forall (fun e => ~ names "memsize" e) envp ->
  memsize (prom_envp_loop envp g) = memsize g.
Proof.
  intros Hno. revert g. induction Hno as [| e envp He Hno IH]; intros g; [reflexivity |].
  cbn [prom_envp_loop]. rewrite IH. cbn [set_parsed memsize].
  now apply parse_other.
Qed.
End Pmon.

Lemma prom_envp_loop_last_cpuclock {cfg : env_h} pre ds post g :
  ds <> [] -> Forall is_digit ds -> numeral_value ds < 2 ^ 32 ->
  Forall (fun e => ~ names "cpuclock" e) post ->
  cpu_clock_freq (prom_envp_loop (pre ++ ("cpuclock=" +:+ numeral ds) :: post) g)
  = numeral_value ds.
Proof.
  intros Hne Hds Hv Hpost. rewrite prom_envp_loop_app. cbn [prom_envp_loop].
  rewrite prom_envp_loop_keeps_freq by exact Hpost. cbn [set_parsed cpu_clock_freq].
  now apply parse_cpuclock.
Qed.

(** The frequency [prom_init_env] ends with when none was supplied is read
    off the revision field of the processor identification. *)
Lemma prom_init_env_finish_by_revision {cfg : env_h} (processor_id : Z) (g : globals) :
  cpu_clock_freq g = 0 ->
  let r := prom_init_env_finish processor_id g in
  let rev := Z.land processor_id PRID_REV_MASK in
  let by_revision :=
    if decide (rev = PRID_REV_LOONGSON2E) then 533080000
    else if decide (rev = PRID_REV_LOONGSON2F) then 797000000
    else if decide (rev ∈ [PRID_REV_LOONGSON3A_R1; PRID_REV_LOONGSON3A_R2_0;
                           PRID_REV_LOONGSON3A_R2_1; PRID_REV_LOONGSON3A_R3_0;
                           PRID_REV_LOONGSON3A_R3_1]) then 900000000
    else if decide (rev ∈ [PRID_REV_LOONGSON3B_R1; PRID_REV_LOONGSON3B_R2])
         then 1000000000
    else 100000000 in
  cpu_clock_freq r = by_revision /\ mips_cpu_frequency r = by_revision.
Proof.
  intros Hzero r rev by_revision. subst r by_revision.
  unfold prom_init_env_finish. cbn [cpu_clock_freq mips_cpu_frequency].
  rewrite Hzero. change (0 =? 0) with true. cbv iota. fold rev.
  enough (Htable :
    (if rev =? PRID_REV_LOONGSON2E then 533080000
     else if rev =? PRID_REV_LOONGSON2F then 797000000
     else if (rev =? PRID_REV_LOONGSON3A_R1) || (rev =? PRID_REV_LOONGSON3A_R2_0)
             || (rev =? PRID_REV_LOONGSON3A_R2_1) || (rev =? PRID_REV_LOONGSON3A_R3_0)
             || (rev =? PRID_REV_LOONGSON3A_R3_1) then 900000000
     else if (rev =? PRID_REV_LOONGSON3B_R1) || (rev =? PRID_REV_LOONGSON3B_R2)
          then 1000000000
     else 100000000)
    = (if decide (rev = PRID_REV_LOONGSON2E) then 533080000
       else if decide (rev = PRID_REV_LOONGSON2F) then 797000000
       else if decide (rev ∈ [PRID_REV_LOONGSON3A_R1; PRID_REV_LOONGSON3A_R2_0;
                              PRID_REV_LOONGSON3A_R2_1; PRID_REV_LOONGSON3A_R3_0;
                              PRID_REV_LOONGSON3A_R3_1]) then 900000000
       else if decide (rev ∈ [PRID_REV_LOONGSON3B_R1; PRID_REV_LOONGSON3B_R2])
            then 1000000000
       else 100000000)) by (split; exact Htable).
  clearbody rev.
  destruct (decide (rev = PRID_REV_LOONGSON2E)) as [-> | H2e];
    [now rewrite Z.eqb_refl |].
  rewrite (proj2 (Z.eqb_neq _ _) H2e).
  destruct (decide (rev = PRID_REV_LOONGSON2F)) as [-> | H2f];
    [now rewrite Z.eqb_refl |].
  rewrite (proj2 (Z.eqb_neq _ _) H2f).
  destruct (decide (rev ∈ [PRID_REV_LOONGSON3A_R1; PRID_REV_LOONGSON3A_R2_0;
                           PRID_REV_LOONGSON3A_R2_1; PRID_REV_LOONGSON3A_R3_0;
                           PRID_REV_LOONGSON3A_R3_1])) as [H3a | H3a].
  { rewrite !elem_of_cons in H3a.
    destruct H3a as [-> | [-> | [-> | [-> | [-> | H3a]]]]];
      [| | | | | now apply elem_of_nil in H3a];
      rewrite Z.eqb_refl, ?orb_true_r; reflexivity. }
  rewrite !not_elem_of_cons in H3a. destruct H3a as (Ha & Hb & Hc & Hd & He & _).
  rewrite (proj2 (Z.eqb_neq _ _) Ha), (proj2 (Z.eqb_neq _ _) Hb),
    (proj2 (Z.eqb_neq _ _) Hc), (proj2 (Z.eqb_neq _ _) Hd), (proj2 (Z.eqb_neq _ _) He).
  cbn [orb].
  destruct (decide (rev ∈ [PRID_REV_LOONGSON3B_R1; PRID_REV_LOONGSON3B_R2]))
    as [H3b | H3b].
  { rewrite !elem_of_cons in H3b.
    destruct H3b as [-> | [-> | H3b]]; [| | now apply elem_of_nil in H3b];
      rewrite Z.eqb_refl, ?orb_true_r; reflexivity. }
  rewrite !not_elem_of_cons in H3b. destruct H3b as (Hf & Hg & _).
  rewrite (proj2 (Z.eqb_neq _ _) Hf), (proj2 (Z.eqb_neq _ _) Hg). reflexivity.
Qed.

(** C8, as the code has it: on the PMON path the dummy hub is selected and
    one UART assumed, whatever the argument list; when the memory size was
    still 0 and no entry begins with "memsize", it becomes 256; when the
    last entry beginning with "cpuclock" is "cpuclock=N" for a decimal numeral
    N with 0 < N < 2 ^ 32, the clock frequency is exactly N; and when that
    numeral has the value 0, the value counts as not supplied and the
    frequency is the one the processor-revision table gives for the revision
    field of the processor identification: 533.08 MHz for a 2E, 797 MHz for a
    2F, 900 MHz for the five 3A revisions, 1 GHz for the two 3B revisions and
    100 MHz for every other revision. *)
Theorem prom_init_env_pmon_spec {cfg : env_h} (envp : list string)
    (processor_id : Z) (g : globals) :
  let r := prom_init_env_pmon envp processor_id g in
  let rev := Z.land processor_id PRID_REV_MASK in
  let by_revision :=
    if decide (rev = PRID_REV_LOONGSON2E) then 533080000
    else if decide (rev = PRID_REV_LOONGSON2F) then 797000000
    else if decide (rev ∈ [PRID_REV_LOONGSON3A_R1; PRID_REV_LOONGSON3A_R2_0;
                           PRID_REV_LOONGSON3A_R2_1; PRID_REV_LOONGSON3A_R3_0;
                           PRID_REV_LOONGSON3A_R3_1]) then 900000000
    else if decide (rev ∈ [PRID_REV_LOONGSON3B_R1; PRID_REV_LOONGSON3B_R2])
         then 1000000000
    else 100000000 in
  loongson_pch r = Some dummy_pch /\
  nr_uarts (loongson_sysconf r) = 1 /\
  (memsize g = 0 -> Forall (fun e => ~ names "memsize" e) envp -> memsize r = 256) /\
  (forall pre ds post,
     envp = pre ++ ("cpuclock=" +:+ numeral ds) :: post ->
     ds <> [] -> Forall is_digit ds -> 0 < numeral_value ds < 2 ^ 32 ->
     Forall (fun e => ~ names "cpuclock" e) post ->
     cpu_clock_freq r = numeral_value ds /\ mips_cpu_frequency r = numeral_value ds) /\
  (forall pre ds post,
     envp = pre ++ ("cpuclock=" +:+ numeral ds) :: post ->
     ds <> [] -> Forall is_digit ds -> numeral_value ds = 0 ->
     Forall (fun e => ~ names "cpuclock" e) post ->
     cpu_clock_freq r = by_revision /\ mips_cpu_frequency r = by_revision).
Proof.
  intros r rev by_revision.
  split; [subst r; unfold prom_init_env_pmon, prom_init_env_finish;
          now destruct (memsize (prom_envp_loop envp g) =? 0) |].
  split; [subst r; unfold prom_init_env_pmon, prom_init_env_finish;
          now destruct (memsize (prom_envp_loop envp g) =? 0) |].
  split.
  { intros Hzero Hno. subst r. unfold prom_init_env_pmon, prom_init_env_finish.
    rewrite (prom_envp_loop_keeps_memsize envp g Hno), Hzero. reflexivity. }
  split.
  - intros pre ds post -> Hne Hds [Hpos Hlt] Hpost.
    subst r. unfold prom_init_env_pmon, prom_init_env_finish.
    pose proof (prom_envp_loop_last_cpuclock pre ds post g Hne Hds Hlt Hpost) as Hfreq.
    destruct (memsize _ =? 0); cbn [set_hub set_parsed cpu_clock_freq mips_cpu_frequency];
      rewrite Hfreq; destruct (Z.eqb_spec (numeral_value ds) 0); (lia || now split).
  - intros pre ds post -> Hne Hds Hval Hpost.
    pose proof (prom_envp_loop_last_cpuclock pre ds post g Hne Hds ltac:(lia) Hpost)
      as Hfreq.
    rewrite Hval in Hfreq. subst r. unfold prom_init_env_pmon.
    apply prom_init_env_finish_by_revision.
    destruct (memsize _ =? 0); cbn [set_hub set_parsed cpu_clock_freq]; exact Hfreq.
Qed.

Lemma prom_init_env_pmon_spec_witness :
  let r := @prom_init_env_pmon loongson3_env_h scenario_envp 0x6305
             (boot_globals "Loongson-3") in
  let r' := @prom_init_env_pmon loongson3_env_h ["highmemsize=256"] 0x6305
              (boot_globals "Loongson-3") in
  let r0 := @prom_init_env_pmon loongson3_env_h ["cpuclock=00"; "memsize=512"] 0x6306
              (boot_globals "Loongson-3") in
  loongson_pch r = Some dummy_pch /\
  nr_uarts (loongson_sysconf r) = 1 /\
  cpu_clock_freq r = 800000000 /\
  mips_cpu_frequency r = 800000000 /\
  memsize r' = 256 /\
  cpu_clock_freq r0 = 1000000000 /\
  mips_cpu_frequency r0 = 1000000000.
Proof.
  destruct (@prom_init_env_pmon_spec loongson3_env_h scenario_envp 0x6305
              (boot_globals "Loongson-3")) as (Hhub & Huart & _ & Hfreq & _).
  destruct (Hfreq [] [8; 0; 0; 0; 0; 0; 0; 0; 0] ["memsize=512"%string] eq_refl
              ltac:(discriminate)
              ltac:(repeat constructor; unfold is_digit; lia)
              ltac:(cbn; lia)
              ltac:(repeat constructor; unfold names; cbn; discriminate))
    as [Hclock Hmips].
  destruct (@prom_init_env_pmon_spec loongson3_env_h ["highmemsize=256"%string]
              0x6305 (boot_globals "Loongson-3")) as (_ & _ & Hmem & _).
  destruct (@prom_init_env_pmon_spec loongson3_env_h
              ["cpuclock=00"%string; "memsize=512"%string]
              0x6306 (boot_globals "Loongson-3")) as (_ & _ & _ & _ & Hzero).
  destruct (Hzero [] [0; 0] ["memsize=512"%string] eq_refl
              ltac:(discriminate)
              ltac:(repeat constructor; unfold is_digit; lia)
              eq_refl
              ltac:(repeat constructor; unfold names; cbn; discriminate))
    as [Hclock0 Hmips0].
  exact (conj Hhub (conj Huart (conj Hclock (conj Hmips
    (conj (Hmem eq_refl ltac:(repeat constructor; unfold names; cbn; discriminate))
       (conj Hclock0 Hmips0)))))).
Defined.

(** Against C8 as worded: the entry "cpuclock=0" is parsed to 0, and the
    frequency is then taken from the processor revision instead. *)
Lemma prom_init_env_pmon_cpuclock_zero :
  let r := @prom_init_env_pmon loongson3_env_h ["cpuclock=0"] 0x6305
             (boot_globals "Loongson-3") in
  parse_even_earlier 7 "cpuclock" "cpuclock=0" = 0 /\
  cpu_clock_freq r = 900000000 /\
  mips_cpu_frequency r = 900000000 /\
  mips_cpu_frequency r <> 0.
Proof. cbn. repeat split; discriminate. Qed.

(** Nor is a value stored that does not fit 32 bits. *)
Example prom_init_env_pmon_cpuclock_wide :
  parse_even_earlier 7 "cpuclock" "cpuclock=4294967296" = 7.
Proof. reflexivity. Qed.

(** A later entry with the same option name replaces the value. *)
Example prom_init_env_pmon_cpuclock_twice :
  cpu_clock_freq (@prom_init_env_pmon loongson3_env_h
                    ["cpuclock=5"; "cpuclock=7"] 0x6305 (boot_globals "Loongson-3"))
  = 7.
Proof. reflexivity. Qed.

(** The PMON scenario: 800 MHz, 512 MiB, the dummy hub and one UART. *)
Example prom_init_env_pmon_scenario :
  let r := @prom_init_env_pmon loongson3_env_h scenario_envp 0x6305
             (boot_globals "Loongson-3") in
  mips_cpu_frequency r = 800000000 /\ memsize r = 512 /\
  loongson_pch r = Some dummy_pch /\ nr_uarts (loongson_sysconf r) = 1.
Proof. cbn. repeat split. Qed.

(** The LEFI scenario: a four-core Loongson-3A on a 7A1000 board. *)
Example prom_init_env_lefi_scenario :
  let r := @prom_init_env_lefi loongson3_env_h
             (sample_boot_params Loongson_3A "Loongson-7A1000" 4 1 0)
             0x6308 (boot_globals "Loongson-3") in
  cores_per_node (loongson_sysconf r) = 4 /\ nr_nodes (loongson_sysconf r) = 1 /\
  loongson_pch r = Some ls7a_pch /\ ec_sci_irq (loongson_sysconf r) = 0x07.
Proof. cbn. repeat split. Qed.

(** * Further properties of the driver *)

Lemma s32_small x : - 2 ^ 31 <= x < 2 ^ 31 -> s32 x = x.
Proof. intros Hx. unfold s32. rewrite Z.mod_small by lia. lia. Qed.

Lemma s32_high x : 2 ^ 31 <= x < 2 ^ 32 -> s32 x = x - 2 ^ 32.
Proof.
  intros Hx. unfold s32.
  replace (x + 2 ^ 31) with (x - 2 ^ 31 + 1 * 2 ^ 32) by lia.
  rewrite Z.mod_add, Z.mod_small by lia. lia.
Qed.

(** The margin [hpet_next_event] computes when the counter gained [e] ticks
    between its two readings. *)
Lemma next_event_margin c0 c1 delta e :
  u32 c1 = u32 (c0 + e) ->
  s32 (u32 (c0 + delta) - u32 c1) = s32 (delta - e).
Proof.
  intros Hc1. apply s32_cong. rewrite Hc1.
  rewrite <- u32_sub_r, u32_idem, u32_sub_r.
  unfold u32. rewrite Zminus_mod_idemp_l. f_equal. lia.
Qed.

(** X1: for a delta of at most [0x7fffffff] (the [max_delta_ticks] the
    driver registers) and a counter that gained [e] ticks, [0 <= e <=
    0x7fffffff], between the two readings of [hpet_next_event], the call
    succeeds exactly when at least 16 ticks are left, [e + 16 <= delta], and
    returns [-ETIME] otherwise; a counter that wraps past [2 ^ 32] in between
    makes no difference. *)
Theorem hpet_next_event_in_range {D} {dev : Mmio D} {hdr : hpet_h}
    (delta e : Z) (k : kernel D) (c0 c1 : Z) (d1 d2 : D) :
  0 < ETIME ->
  0 <= delta <= 0x7fffffff ->
  0 <= e <= 0x7fffffff ->
  mmio_load (hpet_reg k HPET_COUNTER) (bus k) = (c0, d1) ->
  mmio_load (hpet_reg k HPET_COUNTER)
    (mmio_store (hpet_reg k HPET_T0_CMP) (u32 (c0 + delta)) d1) = (c1, d2) ->
  u32 c1 = u32 (c0 + e) ->
  ((hpet_next_event delta k).1 = 0 <-> e + 16 <= delta) /\
  ((hpet_next_event delta k).1 = - ETIME <-> delta < e + 16).
Proof.
  intros Hpos Hdelta He Hc0 Hc1 Hgain.
  rewrite (hpet_next_event_run delta k c0 c1 d1 d2 Hc0 Hc1). cbn [fst].
  rewrite (next_event_margin c0 c1 delta e Hgain), s32_small by lia.
  destruct (Z.ltb_spec (delta - e) 16); lia.
Qed.

Lemma hpet_next_event_in_range_witness :
  (0 < 62 /\ 0 <= 30 <= 0x7fffffff /\ 0 <= 7 <= 0x7fffffff /\ u32 107 = u32 (100 + 7)) /\
  ((@hpet_next_event ticking _ loongson_hpet_h 30 ticking_board).1 = 0 <-> 7 + 16 <= 30) /\
  ((@hpet_next_event ticking _ loongson_hpet_h 30 ticking_board).1 = - 62 <-> 30 < 7 + 16).
Proof.
  split; [repeat split; (lia || reflexivity) |].
  exact (@hpet_next_event_in_range ticking _ loongson_hpet_h 30 7 ticking_board
           100 107
           (Ticking {[ 0x10f0 := 107 ]} 0x10f0 7)
           (Ticking (<[0x1108 := 130]> {[ 0x10f0 := 114 ]}) 0x10f0 7)
           ltac:(cbn; lia) ltac:(lia) ltac:(lia) eq_refl eq_refl eq_refl).
Defined.

(** X2: for a delta of [2 ^ 31] ticks or more (below [2 ^ 32]) the signed
    margin of [hpet_next_event] decides differently from the unsigned
    distance. With a counter that gained [e] ticks, [0 <= e <= 0x7fffffff],
    between the two readings, the call returns [-ETIME] when
    [e <= delta - 2 ^ 31], in particular when the counter has not moved at
    all, because the margin is then negative, and when fewer than 16 ticks are
    left, [delta - 16 < e]; it returns 0 exactly in between, when
    [delta - 2 ^ 31 < e <= delta - 16]. So such a delta is rejected on a
    counter that stands still, and is not always rejected on one that runs. *)
Theorem hpet_next_event_beyond_range {D} {dev : Mmio D} {hdr : hpet_h}
    (delta e : Z) (k : kernel D) (c0 c1 : Z) (d1 d2 : D) :
  0 < ETIME ->
  2 ^ 31 <= delta < 2 ^ 32 ->
  0 <= e <= 0x7fffffff ->
  mmio_load (hpet_reg k HPET_COUNTER) (bus k) = (c0, d1) ->
  mmio_load (hpet_reg k HPET_COUNTER)
    (mmio_store (hpet_reg k HPET_T0_CMP) (u32 (c0 + delta)) d1) = (c1, d2) ->
  u32 c1 = u32 (c0 + e) ->
  ((hpet_next_event delta k).1 = - ETIME <-> e <= delta - 2 ^ 31 \/ delta - 16 < e) /\
  ((hpet_next_event delta k).1 = 0 <-> delta - 2 ^ 31 < e <= delta - 16).
Proof.
  intros Hpos Hdelta He Hc0 Hc1 Hgain.
  rewrite (hpet_next_event_run delta k c0 c1 d1 d2 Hc0 Hc1). cbn [fst].
  rewrite (next_event_margin c0 c1 delta e Hgain).
  destruct (Z.le_gt_cases e (delta - 2 ^ 31)) as [Hfar | Hnear].
  - rewrite s32_high by lia.
    destruct (Z.ltb_spec (delta - e - 2 ^ 32) 16); lia.
  - rewrite s32_small by lia.
    destruct (Z.ltb_spec (delta - e) 16); lia.
Qed.

Lemma hpet_next_event_beyond_range_witness :
  (0 < 62 /\ 2 ^ 31 <= 0x80000000 < 2 ^ 32 /\ 0 <= 0 <= 0x7fffffff /\
   0 <= 7 <= 0x7fffffff /\ u32 4711 = u32 (4711 + 0) /\ u32 107 = u32 (100 + 7)) /\
  ((@hpet_next_event _ _ loongson_hpet_h 0x80000000 running_board).1 = - 62
   <-> 0 <= 0x80000000 - 2 ^ 31 \/ 0x80000000 - 16 < 0) /\
  ((@hpet_next_event ticking _ loongson_hpet_h 0x80000000 ticking_board).1 = 0
   <-> 0x80000000 - 2 ^ 31 < 7 <= 0x80000000 - 16).
Proof.
  split; [repeat split; (lia || reflexivity) |].
  exact (conj
    (proj1 (@hpet_next_event_beyond_range _ _ loongson_hpet_h 0x80000000 0
              running_board 4711 4711 (bus running_board)
              (<[0x1108 := 0x80001267]> (bus running_board))
              ltac:(cbn; lia) ltac:(lia) ltac:(lia) eq_refl eq_refl eq_refl))
    (proj2 (@hpet_next_event_beyond_range ticking _ loongson_hpet_h 0x80000000 7
              ticking_board 100 107
              (Ticking {[ 0x10f0 := 107 ]} 0x10f0 7)
              (Ticking (<[0x1108 := 0x80000064]> {[ 0x10f0 := 114 ]}) 0x10f0 7)
              ltac:(cbn; lia) ltac:(lia) ltac:(lia) eq_refl eq_refl eq_refl))).
Defined.

(** X3: [hpet_read_counter] widens the [int] result of [hpet_read] to 64
    bits, so a counter word with bit 31 set comes back sign-extended: with [c]
    the 32-bit word of the counter, the result is [c] below [2 ^ 31] and
    [c + (2 ^ 64 - 2 ^ 32)] from there on. Its low 32 bits, which the
    clocksource mask keeps, are always [c]. *)
Theorem hpet_read_counter_sign_extends {D} {dev : Mmio D} {hdr : hpet_h}
    (k : kernel D) :
  let c := u32 (mmio_load (hpet_reg k HPET_COUNTER) (bus k)).1 in
  let r := (hpet_read_counter k).1 in
  r = (if c <? 2 ^ 31 then c else c + (2 ^ 64 - 2 ^ 32)) /\
  r mod 2 ^ 32 = c /\
  0 <= r < 2 ^ 64.
Proof.
  intros c r. subst r c. unfold hpet_read_counter, hpet_reg.
  destruct k as [fl base ty ht cpu d l]. run. cbn [bus hpet_mmio_base].
  destruct (mmio_load (u64 (base + HPET_COUNTER)) d) as [v d1]. cbn [fst].
  pose proof (u32_range v) as Hv. set (c := u32 v) in *.
  assert (Hr : u64 (s32 c) = if c <? 2 ^ 31 then c else c + (2 ^ 64 - 2 ^ 32)).
  { unfold u64. destruct (Z.ltb_spec c (2 ^ 31)).
    - rewrite s32_small by lia. apply Z.mod_small. lia.
    - rewrite s32_high by lia.
      replace (c - 2 ^ 32) with (c + (2 ^ 64 - 2 ^ 32) + (-1) * 2 ^ 64) by lia.
      rewrite Z.mod_add by lia. apply Z.mod_small. lia. }
  rewrite Hr. split; [reflexivity |]. split.
  - destruct (Z.ltb_spec c (2 ^ 31)).
    + apply Z.mod_small. lia.
    + replace (c + (2 ^ 64 - 2 ^ 32)) with (c + (2 ^ 32 - 1) * 2 ^ 32) by lia.
      rewrite Z.mod_add by lia. apply Z.mod_small. lia.
  - destruct (Z.ltb_spec c (2 ^ 31)); lia.
Qed.

Example hpet_read_counter_high :
  (@hpet_read_counter _ _ loongson_hpet_h
     (Kernel 0 0x1000 RS780E 0 0 ({[ 0x10f0 := 0x80000001 ]} : gmap Z Z) [])).1
  = 0xffffffff80000001.
Proof. reflexivity. Qed.

Section Oneshot.
Context {hdr : hpet_h}.

Lemma hpet_set_state_oneshot_run (k : kernel (gmap Z Z)) :
  let a := hpet_reg k HPET_T0_CFG in
  let w := u32 (Z.lor (Z.land (peek (bus k) a) (Z.lnot HPET_TN_PERIODIC))
                  (Z.lor HPET_TN_ENABLE HPET_TN_32BIT)) in
  hpet_set_state_oneshot k =
    (0, with_bus k (<[a := w]> (bus k))
          [SpinLock; PrInfo "set clock event to one shot mode!";
           Load a (peek (bus k) a); Store a w; SpinUnlock]).
Proof.
  destruct k as [fl base ty ht cpu m l]. unfold hpet_set_state_oneshot, hpet_reg, peek.
  run. cbn [mmio_load mmio_store regfile_mmio bus hpet_mmio_base].
  rewrite periodic_word, <- !app_assoc. reflexivity.
Qed.
End Oneshot.

(** X4: on latched registers [hpet_set_state_oneshot] returns 0 after one
    load and one store, both of the timer-0 control word: in that word the
    periodic bits are cleared and then the enable and 32-bit bits set, every
    other bit is kept, and no other register (so neither the counter nor the
    comparator) changes. A second call leaves the registers as they are. *)
Theorem hpet_set_state_oneshot_effect {hdr : hpet_h} (k : kernel (gmap Z Z)) :
  let a := hpet_reg k HPET_T0_CFG in
  let r := hpet_set_state_oneshot k in
  r.1 = 0 /\
  (exists w, trace_of hpet_set_state_oneshot k =
     [SpinLock; PrInfo "set clock event to one shot mode!";
      Load a (peek (bus k) a); Store a w; SpinUnlock]) /\
  (forall i, 0 <= i < 32 ->
     bit (peek (bus r.2) a) i =
       (bit (peek (bus k) a) i && negb (bit HPET_TN_PERIODIC i))
       || bit HPET_TN_ENABLE i || bit HPET_TN_32BIT i) /\
  (forall b, b <> a -> bus r.2 !! b = bus k !! b) /\
  bus (hpet_set_state_oneshot r.2).2 = bus r.2.
Proof.
  intros a r. subst r.
  assert (Hbits : forall v i, 0 <= i < 32 ->
    bit (u32 (Z.lor (Z.land v (Z.lnot HPET_TN_PERIODIC))
                (Z.lor HPET_TN_ENABLE HPET_TN_32BIT))) i
    = (bit v i && negb (bit HPET_TN_PERIODIC i))
      || bit HPET_TN_ENABLE i || bit HPET_TN_32BIT i).
  { intros v i Hi. rewrite u32_bit by lia. unfold bit.
    now rewrite !Z.lor_spec, Z.land_spec, Z.lnot_spec, orb_assoc by lia. }
  assert (Htrace : exists w, trace_of hpet_set_state_oneshot k =
     [SpinLock; PrInfo "set clock event to one shot mode!";
      Load a (peek (bus k) a); Store a w; SpinUnlock]).
  { eexists. apply trace_of_app. rewrite hpet_set_state_oneshot_run.
    destruct k; reflexivity. }
  rewrite (hpet_set_state_oneshot_run (hpet_set_state_oneshot k).2).
  rewrite (hpet_set_state_oneshot_run k). cbn [fst snd].
  split; [reflexivity |].
  split; [exact Htrace |]. clear Htrace.
  destruct k as [fl base ty ht cpu m l]. unfold hpet_reg in *. cbn in a |- *. fold a.
  split.
  { intros i Hi. unfold peek at 1. lookups. rewrite u32_idem. now apply Hbits. }
  split; [intros b Hb; now rewrite lookup_insert_ne |].
  rewrite insert_insert_eq. f_equal. unfold peek at 1. lookups.
  apply u32_bits_eq. intros i Hi. rewrite u32_idem, !Hbits by lia.
  unfold peek. rewrite u32_bit by lia.
  destruct (bit _ i), (bit HPET_TN_PERIODIC i), (bit HPET_TN_ENABLE i),
    (bit HPET_TN_32BIT i); reflexivity.
Qed.

Lemma lock_bracket_spec t : lock_bracket t = true -> lock_held_throughout t.
Proof.
  destruct t as [| [] rest]; try discriminate. cbn [lock_bracket].
  destruct (rev rest) as [| [] body] eqn:Hrev; try discriminate.
  intros Hbody. exists (rev body). split; [| exact Hbody].
  f_equal. rewrite <- (rev_involutive rest), Hrev. reflexivity.
Qed.

Ltac run_lets :=
  cbv beta iota zeta delta
    [mbind M_bind mret M_ret get emit readl writel spin_lock spin_unlock
     pr_info udelay hpet_read hpet_write hpet_start_counter hpet_stop_counter
     hpet_reset_counter hpet_restart_counter hpet_enable_legacy_int
     SMBUS_CFG_BASE smbus_read smbus_write smbus_enable with_bus
     hpet_irq_flags hpet_mmio_base loongson_pch_type sysconf_ht_control_base
     processor bus log fst snd].

Ltac loads :=
  repeat match goal with
         | |- context [mmio_load ?a ?d] =>
             let v := fresh "v" in let d' := fresh "d" in
             destruct (mmio_load a d) as [v d']
         end.

(** X5: on any device, each of the four mode callbacks
    ([hpet_set_state_shutdown], [hpet_set_state_periodic],
    [hpet_set_state_oneshot], [hpet_tick_resume]) returns 0, takes the lock
    before its first register access and releases it after its last, with no
    lock event in between, and leaves the driver's base address and trigger
    flags as they were. *)
Theorem hpet_mode_callbacks_locked {D} {dev : Mmio D} {hdr : hpet_h}
    (c : M D Z) (k : kernel D) :
  In c [hpet_set_state_shutdown; hpet_set_state_periodic;
        hpet_set_state_oneshot; hpet_tick_resume] ->
  (c k).1 = 0 /\
  lock_held_throughout (trace_of c k) /\
  hpet_mmio_base (c k).2 = hpet_mmio_base k /\
  hpet_irq_flags (c k).2 = hpet_irq_flags k.
Proof.
  intros Hc.
  assert (Hrun : exists t d', c k = (0, with_bus k d' t) /\ lock_bracket t = true).
  { destruct k as [fl base ty ht cpu d l]. cbn [In] in Hc.
    destruct Hc as [<- | [<- | [<- | [<- | []]]]];
      [unfold hpet_set_state_shutdown | unfold hpet_set_state_periodic
       | unfold hpet_set_state_oneshot | unfold hpet_tick_resume];
      repeat first [progress run_lets | progress loads];
      rewrite <- ?app_assoc; cbn [app];
      do 2 eexists; (split; [reflexivity | reflexivity]). }
  destruct Hrun as (t & d' & Hrun & Hbr).
  split; [now rewrite Hrun |].
  split.
  { apply lock_bracket_spec. erewrite trace_of_app; [exact Hbr |].
    rewrite Hrun. destruct k; reflexivity. }
  rewrite Hrun. destruct k; split; reflexivity.
Qed.

Lemma hpet_mode_callbacks_locked_witness :
  lock_held_throughout
    (trace_of (@hpet_set_state_periodic _ _ loongson_hpet_h) running_board) /\
  (@hpet_set_state_periodic _ _ loongson_hpet_h running_board).1 = 0.
Proof.
  destruct (@hpet_mode_callbacks_locked _ _ loongson_hpet_h
              (@hpet_set_state_periodic _ _ loongson_hpet_h) running_board
              ltac:(right; left; reflexivity)) as (Hret & Hlock & _).
  exact (conj Hlock Hret).
Defined.

Section Gate.
Context {hdr : hpet_h}.

Lemma hpet_start_counter_run (k : kernel (gmap Z Z)) :
  let a := hpet_reg k HPET_CFG in
  let w := u32 (Z.lor (peek (bus k) a) HPET_CFG_ENABLE) in
  hpet_start_counter k =
    (tt, with_bus k (<[a := w]> (bus k)) [Load a (peek (bus k) a); Store a w]).
Proof.
  destruct k as [fl base ty ht cpu m l]. unfold hpet_start_counter, hpet_reg, peek.
  run_lets. cbn [mmio_load mmio_store regfile_mmio].
  rewrite !u32_s32, !u32_idem, <- !app_assoc. reflexivity.
Qed.

Lemma hpet_stop_counter_run (k : kernel (gmap Z Z)) :
  let a := hpet_reg k HPET_CFG in
  let w := u32 (Z.land (peek (bus k) a) (Z.lnot HPET_CFG_ENABLE)) in
  hpet_stop_counter k =
    (tt, with_bus k (<[a := w]> (bus k)) [Load a (peek (bus k) a); Store a w]).
Proof.
  destruct k as [fl base ty ht cpu m l]. unfold hpet_stop_counter, hpet_reg, peek.
  run_lets. cbn [mmio_load mmio_store regfile_mmio].
  rewrite !u32_s32, !u32_idem, <- !app_assoc. reflexivity.
Qed.
End Gate.

(** X6: on latched registers [hpet_start_counter] and [hpet_stop_counter]
    change nothing but the enable bits of the configuration word, which the
    first sets and the second clears; whichever is called last decides:
    stopping a started counter leaves the registers as stopping alone does,
    and starting a stopped one as starting alone does. *)
Theorem hpet_counter_gate {hdr : hpet_h} (k : kernel (gmap Z Z)) :
  let a := hpet_reg k HPET_CFG in
  let on := (hpet_start_counter k).2 in
  let off := (hpet_stop_counter k).2 in
  (forall i, 0 <= i < 32 ->
     bit (peek (bus on) a) i = bit (peek (bus k) a) i || bit HPET_CFG_ENABLE i) /\
  (forall i, 0 <= i < 32 ->
     bit (peek (bus off) a) i = bit (peek (bus k) a) i && negb (bit HPET_CFG_ENABLE i)) /\
  (forall b, b <> a -> bus on !! b = bus k !! b /\ bus off !! b = bus k !! b) /\
  bus (hpet_stop_counter on).2 = bus off /\
  bus (hpet_start_counter off).2 = bus on.
Proof.
  intros a on off. subst on off.
  rewrite (hpet_stop_counter_run (hpet_start_counter k).2).
  rewrite (hpet_start_counter_run (hpet_stop_counter k).2).
  rewrite (hpet_start_counter_run k), (hpet_stop_counter_run k). cbn [snd].
  destruct k as [fl base ty ht cpu m l]. unfold hpet_reg in *. cbn in a |- *. fold a.
  assert (Hon : forall v i, 0 <= i < 32 ->
            bit (u32 (Z.lor v HPET_CFG_ENABLE)) i = bit v i || bit HPET_CFG_ENABLE i).
  { intros v i Hi. rewrite u32_bit by lia. unfold bit. now rewrite Z.lor_spec. }
  assert (Hoff : forall v i, 0 <= i < 32 ->
            bit (u32 (Z.land v (Z.lnot HPET_CFG_ENABLE))) i
            = bit v i && negb (bit HPET_CFG_ENABLE i)).
  { intros v i Hi. rewrite u32_bit by lia. unfold bit.
    now rewrite Z.land_spec, Z.lnot_spec by lia. }
  split; [intros i Hi; unfold peek at 1; lookups; rewrite u32_idem; now apply Hon |].
  split; [intros i Hi; unfold peek at 1; lookups; rewrite u32_idem; now apply Hoff |].
  split; [intros b Hb; now rewrite !lookup_insert_ne |].
  split; rewrite insert_insert_eq; f_equal; unfold peek at 1; lookups;
    apply u32_bits_eq; intros i Hi; rewrite u32_idem;
    rewrite ?Hon, ?Hoff by lia; rewrite ?Hon, ?Hoff by lia;
    destruct (bit (peek m a) i), (bit HPET_CFG_ENABLE i); reflexivity.
Qed.

(** ** Bridge fixups *)

Lemma u64_add_inj b x y :
  0 <= x < 2 ^ 64 -> 0 <= y < 2 ^ 64 -> u64 (b + x) = u64 (b + y) -> x = y.
Proof.
  unfold u64. intros Hx Hy Heq.
  assert (Hd : (x - y) mod 2 ^ 64 = 0).
  { replace (x - y) with (b + x - (b + y)) by lia.
    rewrite Zminus_mod, Heq, Z.sub_diag. reflexivity. }
  apply Z.mod_divide in Hd; [| lia]. destruct Hd as [q Hq].
  assert (q = 0) by lia. lia.
Qed.

Lemma setbit_spec v n i :
  0 <= n < 32 -> 0 <= i < 32 ->
  bit (u32 (Z.lor v (Z.shiftl 1 n))) i = bit v i || (i =? n).
Proof.
  intros Hn Hi. rewrite u32_bit by lia. unfold bit.
  change (Z.lor v (Z.shiftl 1 n)) with (Z.setbit v n).
  rewrite Z.setbit_eqb by lia. rewrite (Z.eqb_sym n i). apply orb_comm.
Qed.

(** X7: on an RS780E hub with latched registers, [hpet_setup] stores
    [HPET_ADDR] to SMBus register 0xb4, sets bit 28 of register 0x40 and bit
    10 of register 0x64 keeping their other bits, changes no other register
    (so none of the timer block unless it is mapped there), and run a second
    time changes nothing. *)
Theorem hpet_setup_fixups {hdr : hpet_h} (k : kernel (gmap Z Z)) :
  loongson_pch_type k = RS780E ->
  let base_reg := smbus_reg k SMBUS_PCI_REGB4 in
  let decode_reg := smbus_reg k SMBUS_PCI_REG40 in
  let irq_reg := smbus_reg k SMBUS_PCI_REG64 in
  let s := (hpet_setup k).2 in
  peek (bus s) base_reg = u32 HPET_ADDR /\
  (forall i, 0 <= i < 32 ->
     bit (peek (bus s) decode_reg) i = bit (peek (bus k) decode_reg) i || (i =? 28)) /\
  (forall i, 0 <= i < 32 ->
     bit (peek (bus s) irq_reg) i = bit (peek (bus k) irq_reg) i || (i =? 10)) /\
  (forall b, b ∉ [base_reg; decode_reg; irq_reg] -> bus s !! b = bus k !! b) /\
  bus (hpet_setup s).2 = bus s.
Proof.
  intros Hty base_reg decode_reg irq_reg s.
  assert (Hbd : base_reg <> decode_reg)
    by (intros Heq; apply (u64_add_inj _ 0xb4 0x40) in Heq; [discriminate | lia | lia]).
  assert (Hbi : base_reg <> irq_reg)
    by (intros Heq; apply (u64_add_inj _ 0xb4 0x64) in Heq; [discriminate | lia | lia]).
  assert (Hdi : decode_reg <> irq_reg)
    by (intros Heq; apply (u64_add_inj _ 0x40 0x64) in Heq; [discriminate | lia | lia]).
  assert (Hs : s = with_bus k
            (<[irq_reg := u32 (Z.lor (peek (bus k) irq_reg) (Z.shiftl 1 10))]>
               (<[decode_reg := u32 (Z.lor (peek (bus k) decode_reg) (Z.shiftl 1 28))]>
                  (<[base_reg := u32 HPET_ADDR]> (bus k))))
            [Store base_reg (u32 HPET_ADDR);
             Load decode_reg (peek (bus k) decode_reg);
             Store decode_reg (u32 (Z.lor (peek (bus k) decode_reg) (Z.shiftl 1 28)));
             Load irq_reg (peek (bus k) irq_reg);
             Store irq_reg (u32 (Z.lor (peek (bus k) irq_reg) (Z.shiftl 1 10)))]).
  { subst s. rewrite hpet_setup_run, Hty. cbn [snd].
    fold base_reg decode_reg irq_reg. unfold peek. lookups. reflexivity. }
  assert (Hs2 : (hpet_setup s).2 = with_bus s
            (<[irq_reg := u32 (Z.lor (peek (bus s) irq_reg) (Z.shiftl 1 10))]>
               (<[decode_reg := u32 (Z.lor (peek (bus s) decode_reg) (Z.shiftl 1 28))]>
                  (<[base_reg := u32 HPET_ADDR]> (bus s))))
            [Store base_reg (u32 HPET_ADDR);
             Load decode_reg (peek (bus s) decode_reg);
             Store decode_reg (u32 (Z.lor (peek (bus s) decode_reg) (Z.shiftl 1 28)));
             Load irq_reg (peek (bus s) irq_reg);
             Store irq_reg (u32 (Z.lor (peek (bus s) irq_reg) (Z.shiftl 1 10)))]).
  { rewrite hpet_setup_run.
    replace (loongson_pch_type s) with RS780E
      by (rewrite Hs; destruct k; cbn in *; congruence).
    cbn [snd]. unfold smbus_reg.
    replace (sysconf_ht_control_base s) with (sysconf_ht_control_base k)
      by (rewrite Hs; now destruct k).
    fold (smbus_reg k SMBUS_PCI_REGB4) (smbus_reg k SMBUS_PCI_REG40)
         (smbus_reg k SMBUS_PCI_REG64).
    fold base_reg decode_reg irq_reg. unfold peek. lookups. reflexivity. }
  rewrite Hs2. clear Hs2. rewrite Hs. clear Hs s.
  destruct k as [fl base ty ht cpu m l]. cbn [with_bus bus] in *.
  split; [unfold peek at 1; lookups; now rewrite u32_idem |].
  split; [intros i Hi; unfold peek at 1; lookups; rewrite u32_idem; now apply setbit_spec |].
  split; [intros i Hi; unfold peek at 1; lookups; rewrite u32_idem; now apply setbit_spec |].
  split.
  { intros b Hb. rewrite !not_elem_of_cons in Hb. destruct Hb as (? & ? & ? & _).
    lookups. reflexivity. }
  apply map_eq. intros b.
  assert (Hidem : forall v n, 0 <= n < 32 ->
            u32 (Z.lor (u32 (u32 (Z.lor v (Z.shiftl 1 n)))) (Z.shiftl 1 n))
            = u32 (Z.lor v (Z.shiftl 1 n))).
  { intros v n Hn. apply u32_bits_eq. intros i Hi.
    rewrite setbit_spec, u32_idem, setbit_spec by lia.
    now destruct (bit v i), (i =? n). }
  unfold peek.
  destruct (decide (b = irq_reg)) as [-> | ?];
    [lookups; now rewrite Hidem by lia |].
  destruct (decide (b = decode_reg)) as [-> | ?];
    [lookups; now rewrite Hidem by lia |].
  destruct (decide (b = base_reg)) as [-> | ?]; lookups; reflexivity.
Qed.

Lemma hpet_setup_fixups_witness :
  let s := (@hpet_setup _ _ loongson_hpet_h suspended_board).2 in
  loongson_pch_type suspended_board = RS780E /\
  peek (bus s) 0x90000EFDFE00A0B4 = 0x20000 /\
  bus (@hpet_setup _ _ loongson_hpet_h s).2 = bus s.
Proof.
  split; [reflexivity |].
  destruct (@hpet_setup_fixups loongson_hpet_h suspended_board eq_refl)
    as (Hbase & _ & _ & _ & Hidem).
  exact (conj Hbase Hidem).
Defined.

(** ** Registration *)

(** On any device, whatever the registers answer, the accesses of
    [hpet_set_state_periodic] are these. *)
Lemma hpet_set_state_periodic_trace {D} {dev : Mmio D} {hdr : hpet_h} (k : kernel D) :
  exists c0 old c1,
    trace_of hpet_set_state_periodic k =
      [SpinLock; PrInfo "set clock event to periodic mode!";
       Load (hpet_reg k HPET_CFG) c0;
       Store (hpet_reg k HPET_CFG) (u32 (Z.land c0 (Z.lnot HPET_CFG_ENABLE)));
       Store (hpet_reg k HPET_COUNTER) 0;
       Store (hpet_reg k (HPET_COUNTER + 4)) 0;
       Store (hpet_reg k HPET_T0_CMP) 0;
       Load (hpet_reg k HPET_T0_CFG) old;
       Store (hpet_reg k HPET_T0_CFG) (periodic_mode old (hpet_irq_flags k));
       Store (hpet_reg k HPET_T0_CMP) (u32 HPET_COMPARE_VAL); Udelay 1;
       Store (hpet_reg k HPET_T0_CMP) (u32 HPET_COMPARE_VAL);
       Load (hpet_reg k HPET_CFG) c1;
       Store (hpet_reg k HPET_CFG) (u32 (Z.lor c1 HPET_CFG_ENABLE));
       SpinUnlock].
Proof.
  destruct k as [fl base ty ht cpu d l].
  unfold trace_of, hpet_set_state_periodic, hpet_reg, periodic_mode.
  repeat first [progress run_lets | progress loads].
  rewrite periodic_word, !u32_s32, !u32_idem, <- !app_assoc. cbn [app].
  rewrite drop_app_length. change (u32 0) with 0.
  do 3 eexists. reflexivity.
Qed.

(** [hpet_setup] leaves the driver's globals alone, on any device. *)
Lemma hpet_setup_globals {D} {dev : Mmio D} {hdr : hpet_h} (k : kernel D) :
  exists d t,
    (hpet_setup k).2 = with_bus k d t /\
    (loongson_pch_type k <> RS780E -> d = bus k /\ t = []).
Proof.
  destruct k as [fl base ty ht cpu d l]. unfold hpet_setup.
  destruct ty; cbn [loongson_pch_type];
    repeat first [progress run_lets | progress loads];
    rewrite <- ?app_assoc; cbn [app snd].
  - exists d, []. rewrite app_nil_r. split; [reflexivity | now intros _].
  - exists d, []. rewrite app_nil_r. split; [reflexivity | now intros _].
  - do 2 eexists. split; [reflexivity | intros Hty; congruence].
Qed.

Section Registered.
Context {D : Type} {dev : Mmio D} {hdr : hpet_h} {hub : pch_h}.
Variable calc : Cd.clock_event_device D -> Z -> Z -> Z * Z.
Variable delta2ns : Z -> Cd.clock_event_device D -> Z.
Variable event_handler : Z -> M D unit.

(** The kernel state [setup_hpet_timer] leaves. *)
Lemma setup_hpet_timer_kern (s : hpet_driver D) :
  let k := kern s in
  let '(freq, t0_irq, base, flags) := hub_timer (loongson_pch_type k) in
  kern (setup_hpet_timer calc delta2ns event_handler s) =
    (pr_info "hpet clock event device register"
       (hpet_setup (Kernel (u32 flags) (u64 base) (loongson_pch_type k)
                      (sysconf_ht_control_base k) (processor k) (bus k) (log k))).2).2.
Proof.
  unfold setup_hpet_timer, clockevent_set_clock.
  destruct (hub_timer (loongson_pch_type (kern s))) as [[[freq irq] base] flags].
  cbv zeta.
  match goal with
  | |- context [calc ?c ?f ?m] => destruct (calc c f m) as [mu sh]
  end.
  reflexivity.
Qed.

(** The descriptor [setup_hpet_timer] fills in for the current processor. *)
Lemma setup_hpet_timer_descriptor (s : hpet_driver D) :
  let r := setup_hpet_timer calc delta2ns event_handler s in
  let cd := hpet_clockevent_device r (processor (kern s)) in
  Cd.set_state_periodic cd = Some hpet_set_state_periodic /\
  Cd.set_next_event cd = Some hpet_next_event /\
  Cd.min_delta_ticks cd = HPET_MIN_PROG_DELTA /\
  Cd.max_delta_ticks cd = 0x7fffffff.
Proof.
  unfold setup_hpet_timer, clockevent_set_clock.
  destruct (hub_timer (loongson_pch_type (kern s))) as [[[freq irq] base] flags].
  cbv zeta.
  match goal with
  | |- context [calc ?c ?f ?m] => destruct (calc c f m) as [mu sh]
  end.
  cbn [hpet_clockevent_device]. case_decide; [| congruence].
  repeat split.
Qed.

Lemma setup_hpet_timer_flags (s : hpet_driver D) :
  let r := setup_hpet_timer calc delta2ns event_handler s in
  hpet_irq_flags (kern r) =
    match loongson_pch_type (kern s) with
    | RS780E => 0
    | _ => u32 HPET_TN_LEVEL
    end /\
  loongson_pch_type (kern r) = loongson_pch_type (kern s) /\
  (loongson_pch_type (kern s) <> RS780E ->
     bus (kern r) = bus (kern s) /\
     log (kern r) = log (kern s) ++ [PrInfo "hpet clock event device register"]).
Proof.
  pose proof (setup_hpet_timer_kern s) as Hk. cbv zeta in Hk.
  destruct (hub_timer (loongson_pch_type (kern s))) as [[[freq irq] base] flags] eqn:Hhub.
  cbv zeta. rewrite Hk. clear Hk.
  destruct (hpet_setup_globals
              (Kernel (u32 flags) (u64 base) (loongson_pch_type (kern s))
                 (sysconf_ht_control_base (kern s)) (processor (kern s))
                 (bus (kern s)) (log (kern s)))) as (d & t & -> & Hquiet).
  cbn [pr_info emit snd with_bus hpet_irq_flags loongson_pch_type bus log] in *.
  split.
  { unfold hub_timer in Hhub. destruct (loongson_pch_type (kern s));
      injection Hhub as _ _ _ <-; reflexivity. }
  split; [reflexivity |].
  intros Hty. destruct (Hquiet Hty) as [-> ->]. rewrite app_nil_r. split; reflexivity.
Qed.
End Registered.

Lemma hpet_next_event_succeeds {D} {dev : Mmio D} {hdr : hpet_h}
    (delta e : Z) (k : kernel D) (c0 c1 : Z) (d1 d2 : D) :
  0 <= e -> e + 16 <= delta -> delta <= 0x7fffffff ->
  mmio_load (hpet_reg k HPET_COUNTER) (bus k) = (c0, d1) ->
  mmio_load (hpet_reg k HPET_COUNTER)
    (mmio_store (hpet_reg k HPET_T0_CMP) (u32 (c0 + delta)) d1) = (c1, d2) ->
  u32 c1 = u32 (c0 + e) ->
  (hpet_next_event delta k).1 = 0.
Proof.
  intros He Hleft Hmax Hc0 Hc1 Hgain.
  rewrite (hpet_next_event_run delta k c0 c1 d1 d2 Hc0 Hc1). cbn [fst].
  rewrite (next_event_margin c0 c1 delta e Hgain), s32_small by lia.
  destruct (Z.ltb_spec (delta - e) 16); [lia | reflexivity].
Qed.

(** X8: after [setup_hpet_timer] the descriptor of the current processor
    carries [hpet_next_event] as its [set_next_event] callback, with a
    programmable range of 192 to [0x7fffffff] ticks, and every delta in that
    range is programmed successfully by that callback on the state the setup
    leaves, as long as the counter gains no more than delta - 16 ticks between
    its two readings; the range leaves at least 176 ticks of slack. *)
Theorem setup_hpet_timer_next_event {D} {dev : Mmio D} {hdr : hpet_h} {hub : pch_h}
    (calc : Cd.clock_event_device D -> Z -> Z -> Z * Z)
    (delta2ns : Z -> Cd.clock_event_device D -> Z)
    (event_handler : Z -> M D unit) (s : hpet_driver D) :
  let r := setup_hpet_timer calc delta2ns event_handler s in
  let cd := hpet_clockevent_device r (processor (kern s)) in
  let k := kern r in
  Cd.set_next_event cd = Some hpet_next_event /\
  Cd.min_delta_ticks cd = 192 /\
  Cd.max_delta_ticks cd = 0x7fffffff /\
  (forall (delta e c0 c1 : Z) (d1 d2 : D),
     Cd.min_delta_ticks cd <= delta <= Cd.max_delta_ticks cd ->
     0 <= e <= delta - 16 ->
     mmio_load (hpet_reg k HPET_COUNTER) (bus k) = (c0, d1) ->
     mmio_load (hpet_reg k HPET_COUNTER)
       (mmio_store (hpet_reg k HPET_T0_CMP) (u32 (c0 + delta)) d1) = (c1, d2) ->
     u32 c1 = u32 (c0 + e) ->
     forall f, Cd.set_next_event cd = Some f -> (f delta k).1 = 0).
Proof.
  intros r cd k.
  destruct (setup_hpet_timer_descriptor calc delta2ns event_handler s)
    as (_ & Hnext & Hmin & Hmax).
  fold r in Hnext, Hmin, Hmax. fold cd in Hnext, Hmin, Hmax.
  unfold HPET_MIN_PROG_DELTA, HPET_MIN_CYCLES in Hmin.
  split; [exact Hnext |].
  split; [exact Hmin |].
  split; [exact Hmax |].
  intros delta e c0 c1 d1 d2 Hrange He Hc0 Hc1 Hgain f Hf.
  rewrite Hnext in Hf. injection Hf as <-.
  rewrite Hmin, Hmax in Hrange.
  apply (hpet_next_event_succeeds delta e k c0 c1 d1 d2); (lia || assumption).
Qed.

Lemma setup_hpet_timer_next_event_witness :
  let r := @setup_hpet_timer _ _ loongson_hpet_h sample_pch_h
             sample_calc_mult_shift sample_delta2ns idle_handler unset_driver in
  let cd := hpet_clockevent_device r 0 in
  (Cd.min_delta_ticks cd <= 192 <= Cd.max_delta_ticks cd /\ 0 <= 0 <= 192 - 16) /\
  Cd.set_next_event cd = Some (@hpet_next_event _ regfile_mmio loongson_hpet_h) /\
  Cd.min_delta_ticks cd = 192 /\
  Cd.max_delta_ticks cd = 0x7fffffff /\
  (@hpet_next_event _ regfile_mmio loongson_hpet_h 192 (kern r)).1 = 0.
Proof.
  split; [repeat split; vm_compute; discriminate |].
  destruct (@setup_hpet_timer_next_event _ regfile_mmio loongson_hpet_h sample_pch_h
              sample_calc_mult_shift sample_delta2ns idle_handler unset_driver)
    as (Hnext & Hmin & Hmax & Hrun).
  exact (conj Hnext (conj Hmin (conj Hmax
    (Hrun 192 0 0 0
       (bus running_board)
       (<[0x90000e00100010f0 + 0x18 := 192]> (bus running_board))
       ltac:(split; vm_compute; discriminate) ltac:(lia)
       eq_refl eq_refl eq_refl (@hpet_next_event _ regfile_mmio loongson_hpet_h)
       eq_refl)))).
Defined.

(** X9: after [setup_hpet_timer] the registered periodic callback is
    [hpet_set_state_periodic], and on any device the control word it stores
    to timer 0 has the level bits set on an LS2H or LS7A hub, whatever the
    register held; on an RS780E hub the level bits of the old word are
    dropped, so that a level bit survives only where one of the enable,
    periodic, set-value or 32-bit masks has it. *)
Theorem setup_hpet_timer_periodic_trigger {D} {dev : Mmio D} {hdr : hpet_h}
    {hub : pch_h}
    (calc : Cd.clock_event_device D -> Z -> Z -> Z * Z)
    (delta2ns : Z -> Cd.clock_event_device D -> Z)
    (event_handler : Z -> M D unit) (s : hpet_driver D) :
  let r := setup_hpet_timer calc delta2ns event_handler s in
  let cd := hpet_clockevent_device r (processor (kern s)) in
  let k := kern r in
  Cd.set_state_periodic cd = Some hpet_set_state_periodic /\
  (exists old,
     In (Load (hpet_reg k HPET_T0_CFG) old) (trace_of hpet_set_state_periodic k) /\
     In (Store (hpet_reg k HPET_T0_CFG) (periodic_mode old (hpet_irq_flags k)))
        (trace_of hpet_set_state_periodic k)) /\
  (forall old i, 0 <= i < 32 -> bit HPET_TN_LEVEL i = true ->
     bit (periodic_mode old (hpet_irq_flags k)) i =
       match loongson_pch_type (kern s) with
       | RS780E => bit HPET_TN_ENABLE i || bit HPET_TN_PERIODIC i
                   || bit HPET_TN_SETVAL i || bit HPET_TN_32BIT i
       | _ => true
       end).
Proof.
  intros r cd k.
  destruct (setup_hpet_timer_descriptor calc delta2ns event_handler s)
    as (Hper & _).
  destruct (setup_hpet_timer_flags calc delta2ns event_handler s) as (Hflags & _).
  fold r in Hper, Hflags. fold cd in Hper. fold k in Hflags.
  split; [exact Hper |].
  split.
  { destruct (hpet_set_state_periodic_trace k) as (c0 & old & c1 & ->).
    exists old. cbn [In]. split; auto 20. }
  intros old i Hi Hlevel. unfold periodic_mode. rewrite u32_bit by lia. unfold bit in *.
  rewrite !Z.lor_spec, Z.land_spec, Z.lnot_spec, Hlevel, Hflags by lia.
  destruct (loongson_pch_type (kern s)).
  - fold (bit (u32 HPET_TN_LEVEL) i). rewrite u32_bit by lia. unfold bit.
    rewrite Hlevel. now rewrite !orb_true_r.
  - fold (bit (u32 HPET_TN_LEVEL) i). rewrite u32_bit by lia. unfold bit.
    rewrite Hlevel. now rewrite !orb_true_r.
  - rewrite Z.bits_0. cbn [negb]. now rewrite andb_false_r, orb_false_r.
Qed.

(** * Further properties of the resolver *)



Lemma prom_init_env_finish_freq {cfg : env_h} (processor_id : Z) (g : globals) :
  let r := prom_init_env_finish processor_id g in
  mips_cpu_frequency r = cpu_clock_freq r /\
  cpu_clock_freq r <> 0 /\
  (cpu_clock_freq g <> 0 -> cpu_clock_freq r = cpu_clock_freq g) /\
  (cpu_clock_freq g = 0 ->
     cpu_clock_freq r ∈ [533080000; 797000000; 900000000; 1000000000; 100000000]).
Proof.
  unfold prom_init_env_finish. cbn [mips_cpu_frequency cpu_clock_freq].
  split; [reflexivity |].
  destruct (Z.eqb_spec (cpu_clock_freq g) 0) as [Hz | Hnz].
  - set (rev := Z.land processor_id PRID_REV_MASK).
    assert (Hin : (if rev =? PRID_REV_LOONGSON2E then 533080000
        else if rev =? PRID_REV_LOONGSON2F then 797000000
        else if (rev =? PRID_REV_LOONGSON3A_R1) || (rev =? PRID_REV_LOONGSON3A_R2_0)
                || (rev =? PRID_REV_LOONGSON3A_R2_1) || (rev =? PRID_REV_LOONGSON3A_R3_0)
                || (rev =? PRID_REV_LOONGSON3A_R3_1) then 900000000
        else if (rev =? PRID_REV_LOONGSON3B_R1) || (rev =? PRID_REV_LOONGSON3B_R2)
             then 1000000000
        else 100000000)
      ∈ [533080000; 797000000; 900000000; 1000000000; 100000000]).
    { repeat match goal with
             | |- context [if ?b then _ else _] => destruct b
             end; repeat (first [apply list_elem_of_here | apply list_elem_of_further]). }
    split; [| split; [intros Hne; contradiction | intros _; exact Hin]].
    intros Hzero. rewrite Hzero in Hin.
    repeat (apply elem_of_cons in Hin as [Hin | Hin]; [discriminate Hin |]).
    now apply elem_of_nil in Hin.
  - split; [exact Hnz |]. split; [reflexivity | intros Hz; contradiction].
Qed.


(** ** The name of the processor *)

Lemma strlen_append s t : strlen (s +:+ t) = (strlen s + strlen t)%nat.
Proof.
  unfold strlen. induction s as [| c s IH]; [reflexivity |].
  change (S (String.length (s +:+ t)) = S (String.length s + String.length t)).
  now rewrite IH.
Qed.

Lemma substring_whole s n : (strlen s <= n)%nat -> substring 0 n s = s.
Proof.
  unfold strlen. revert n. induction s as [| c s IH]; intros n Hn.
  - now destruct n.
  - destruct n as [| n]; cbn in *; [lia |]. rewrite IH by lia. reflexivity.
Qed.

(** The decimal text of a count of megahertz that fits 32 bits has at most
    four digits (checked by running [pretty] on each of them). *)
Lemma mhz_text_short n : 0 <= n < 4295 -> (strlen (pretty n) <= 4)%nat.
Proof.
  intros Hn.
  assert (Hall : forallb (fun m => (strlen (pretty m) <=? 4)%nat) (seqZ 0 4295) = true)
    by (vm_compute; reflexivity).
  rewrite forallb_forall in Hall.
  apply Nat.leb_le, Hall, list_elem_of_In, elem_of_seqZ. lia.
Qed.

(** X12: for a processor name of at most 53 characters, the end of
    [prom_init_env] appends " @ NMHz" to it and publishes the result as
    [__cpu_full_name[0]]. The suffix has at most 10 characters, so the result
    has at most 63 and fits the 64-byte array [cpu_full_name] with its
    terminator; nothing of it is cut off. For a 32-bit frequency below
    [2 ^ 32 - 500000] the figure N is the frequency rounded to the nearest
    megahertz (halves up); from there on the 32-bit sum wraps and N is 0. *)
Theorem prom_init_env_finish_name {cfg : env_h} (processor_id : Z) (g : globals) :
  0 <= cpu_clock_freq g < 2 ^ 32 ->
  (strlen (cpu_full_name g) <= 53)%nat ->
  let r := prom_init_env_finish processor_id g in
  let f := cpu_clock_freq r in
  let mhz := if f <? 2 ^ 32 - 500000 then (f + 500000) / 1000000 else 0 in
  cpu_full_name r = cpu_full_name g +:+ " @ " +:+ pretty mhz +:+ "MHz" /\
  (strlen (cpu_full_name r) <= strlen (cpu_full_name g) + 10)%nat /\
  (strlen (cpu_full_name r) < 64)%nat /\
  cpu_full_name_0 r = cpu_full_name r /\
  0 <= f < 2 ^ 32 /\
  (f < 2 ^ 32 - 500000 -> mhz * 1000000 - 500000 <= f < mhz * 1000000 + 500000).
Proof.
  intros Hg Hfits r f mhz.
  destruct (prom_init_env_finish_freq processor_id g) as (_ & _ & Hkeep & Htable).
  fold r in Hkeep, Htable. fold f in Hkeep, Htable.
  assert (Hf : 0 <= f < 2 ^ 32).
  { destruct (Z.eq_dec (cpu_clock_freq g) 0) as [Hz | Hnz].
    - specialize (Htable Hz).
      repeat (apply elem_of_cons in Htable as [-> | Htable]; [lia |]).
      now apply elem_of_nil in Htable.
    - rewrite (Hkeep Hnz). exact Hg. }
  assert (Hmhz : u32 (f + 500000) / 1000000 = mhz /\ 0 <= mhz < 4295).
  { subst mhz. unfold u32. destruct (Z.ltb_spec f (2 ^ 32 - 500000)).
    - rewrite Z.mod_small by lia. split; [reflexivity |].
      split; [apply Z.div_pos; lia | apply Z.div_lt_upper_bound; lia].
    - replace (f + 500000) with (f + 500000 - 2 ^ 32 + 1 * 2 ^ 32) by lia.
      rewrite Z.mod_add, Z.mod_small by lia.
      rewrite Z.div_small by lia. lia. }
  destruct Hmhz as [Hmhz Hsmall].
  pose proof (mhz_text_short mhz Hsmall) as Hdigits.
  assert (Hname : cpu_full_name r
                  = cpu_full_name g +:+ " @ " +:+ pretty mhz +:+ "MHz").
  { subst r f. unfold prom_init_env_finish in *. cbn [cpu_full_name cpu_clock_freq] in *.
    rewrite Hmhz. unfold strncat. rewrite substring_whole; [reflexivity |].
    rewrite !strlen_append. cbn. lia. }
  assert (Hlen : (strlen (cpu_full_name r) <= strlen (cpu_full_name g) + 10)%nat).
  { rewrite Hname, !strlen_append. cbn. lia. }
  split; [exact Hname |].
  split; [exact Hlen |].
  split; [lia |].
  split; [reflexivity |].
  split; [exact Hf |].
  intros Hlow. subst mhz. destruct (Z.ltb_spec f (2 ^ 32 - 500000)); [| lia].
  pose proof (Z.div_mod (f + 500000) 1000000 ltac:(lia)).
  pose proof (Z.mod_pos_bound (f + 500000) 1000000 ltac:(lia)). lia.
Qed.

Lemma prom_init_env_finish_name_witness :
  let r := @prom_init_env_finish loongson3_env_h 0x6305
             (set_parsed 1799500000 0 0 (boot_globals "Loongson-3A")) in
  (0 <= 1799500000 < 2 ^ 32 /\ (0 <= 53)%nat) /\
  cpu_full_name r = " @ 1800MHz"%string /\
  (strlen (cpu_full_name r) < 64)%nat /\
  cpu_full_name_0 r = cpu_full_name r.
Proof.
  split; [split; lia |].
  destruct (@prom_init_env_finish_name loongson3_env_h 0x6305
              (set_parsed 1799500000 0 0 (boot_globals "Loongson-3A"))
              ltac:(cbn; lia) ltac:(cbn; lia)) as (Hname & _ & Hfit & Hpub & _).
  exact (conj Hname (conj Hfit Hpub)).
Defined.

(** At the top of the 32-bit range the figure wraps to 0. *)
Example prom_init_env_finish_name_wraps :
  cpu_full_name (@prom_init_env_finish loongson3_env_h 0x6305
                   (set_parsed 4294967295 0 0 (boot_globals "Loongson-3A")))
  = " @ 0MHz"%string.
Proof. reflexivity. Qed.

(** ** Hub, devicetree blob and descriptor tables *)








(** ** The PMON argument list *)

Lemma strncmp_prefix option rest :
  strncmp option (option +:+ rest) (strlen option) = 0.
Proof.
  induction option as [| c option IH]; [reflexivity |].
  change (strncmp (String c option) (String c option +:+ rest) (strlen (String c option)))
    with (if uchar c =? uchar c
          then strncmp option (option +:+ rest) (strlen option)
          else if uchar c <? uchar c then -1 else 1).
  rewrite Z.eqb_refl. exact IH.
Qed.

Lemma str_plus_value option sep rest :
  str_plus (option +:+ String sep rest) (strlen (option +:+ "=")) = rest.
Proof. induction option as [| c option IH]; [reflexivity | exact IH]. Qed.

(** X15: [parse_even_earlier] compares the option name only and then skips
    one character unseen: whatever character follows the name, the decimal
    numeral after it is stored, "cpuclock:800" as well as "cpuclock=800". *)
Theorem parse_even_earlier_any_separator (res : Z) (option : string)
    (sep : ascii) (ds : list Z) :
  ds <> [] -> Forall is_digit ds -> numeral_value ds < 2 ^ 32 ->
  parse_even_earlier res option (option +:+ String sep (numeral ds))
  = numeral_value ds.
Proof.
  intros Hne Hds Hv. unfold parse_even_earlier.
  rewrite strncmp_prefix, str_plus_value, kstrtou32_numeral by assumption.
  reflexivity.
Qed.

Lemma parse_even_earlier_any_separator_witness :
  ([8; 0; 0] <> ([] : list Z) /\ Forall is_digit [8; 0; 0]
   /\ numeral_value [8; 0; 0] < 2 ^ 32) /\
  parse_even_earlier 0 "cpuclock" "cpuclock:800" = 800.
Proof.
  assert (Hne : [8; 0; 0] <> ([] : list Z)) by discriminate.
  assert (Hds : Forall is_digit [8; 0; 0])
    by (repeat constructor; unfold is_digit; lia).
  assert (Hv : numeral_value [8; 0; 0] < 2 ^ 32) by (cbn; lia).
  split; [exact (conj Hne (conj Hds Hv)) |].
  exact (parse_even_earlier_any_separator 0 "cpuclock" ":" [8; 0; 0] Hne Hds Hv).
Defined.

Lemma set_parsed_same g : set_parsed (cpu_clock_freq g) (memsize g) (highmemsize g) g = g.
Proof. now destruct g. Qed.

(** X16: entries that begin with none of the three option names are
    ignored: the loop over such a list changes no global, so
    [prom_init_env] ends as it does for the empty list, with a memory size of
    256 if it was 0 before. *)
Theorem prom_envp_loop_ignores_unknown {cfg : env_h} (envp : list string)
    (processor_id : Z) (g : globals) :
  Forall (fun e => ~ names "cpuclock" e /\ ~ names "memsize" e
                   /\ ~ names "highmemsize" e) envp ->
  prom_envp_loop envp g = g /\
  prom_init_env_pmon envp processor_id g = prom_init_env_pmon [] processor_id g /\
  (memsize g = 0 -> memsize (prom_init_env_pmon envp processor_id g) = 256).
Proof.
  intros Hun.
  assert (Hloop : prom_envp_loop envp g = g).
  { induction Hun as [| e envp (Hc & Hm & Hh) Hun IH]; [reflexivity |].
    cbn [prom_envp_loop]. rewrite !parse_other by assumption.
    rewrite set_parsed_same. exact IH. }
  split; [exact Hloop |].
  unfold prom_init_env_pmon. rewrite Hloop. cbn [prom_envp_loop].
  split; [reflexivity |].
  intros Hz. rewrite Hz. reflexivity.
Qed.

Lemma prom_envp_loop_ignores_unknown_witness :
  prom_envp_loop ["busclock=33"; "ethaddr=00:11:22:33:44:55"]
    (boot_globals "Loongson-3") = boot_globals "Loongson-3" /\
  memsize (@prom_init_env_pmon loongson3_env_h
             ["busclock=33"; "ethaddr=00:11:22:33:44:55"] 0x6305
             (boot_globals "Loongson-3")) = 256.
Proof.
  destruct (@prom_envp_loop_ignores_unknown loongson3_env_h
              ["busclock=33"%string; "ethaddr=00:11:22:33:44:55"%string] 0x6305
              (boot_globals "Loongson-3")
              ltac:(repeat constructor; unfold names; cbn; discriminate))
    as (Hloop & _ & Hmem).
  exact (conj Hloop (Hmem eq_refl)).
Defined.

(** X17: the three options do not shadow one another: an entry
    "memsize=N" changes the memory size only, "highmemsize=N" the high memory
    size only (the name "memsize" inside it is not seen), and "cpuclock=N" the
    clock frequency only. *)
Theorem prom_envp_loop_options_separate {cfg : env_h} (ds : list Z) (g : globals) :
  ds <> [] -> Forall is_digit ds -> numeral_value ds < 2 ^ 32 ->
  let n := numeral_value ds in
  prom_envp_loop ["memsize=" +:+ numeral ds] g
    = set_parsed (cpu_clock_freq g) n (highmemsize g) g /\
  prom_envp_loop ["highmemsize=" +:+ numeral ds] g
    = set_parsed (cpu_clock_freq g) (memsize g) n g /\
  prom_envp_loop ["cpuclock=" +:+ numeral ds] g
    = set_parsed n (memsize g) (highmemsize g) g.
Proof.
  intros Hne Hds Hv n. cbn [prom_envp_loop].
  assert (Hhit : forall res option,
            parse_even_earlier res option (option +:+ String "="%char (numeral ds)) = n)
    by (intros; now apply parse_even_earlier_any_separator).
  assert (Hmiss : forall res option entry,
            strncmp option (entry +:+ numeral ds) (strlen option) <> 0 ->
            parse_even_earlier res option (entry +:+ numeral ds) = res)
    by (intros; now apply parse_other).
  split; [| split].
  - rewrite (Hhit (memsize g) "memsize"%string : parse_even_earlier _ _ ("memsize=" +:+ _) = n).
    rewrite !Hmiss by (vm_compute; discriminate). reflexivity.
  - rewrite (Hhit (highmemsize g) "highmemsize"%string
             : parse_even_earlier _ _ ("highmemsize=" +:+ _) = n).
    rewrite !Hmiss by (vm_compute; discriminate). reflexivity.
  - rewrite (Hhit (cpu_clock_freq g) "cpuclock"%string
             : parse_even_earlier _ _ ("cpuclock=" +:+ _) = n).
    rewrite !Hmiss by (vm_compute; discriminate). reflexivity.
Qed.

Lemma prom_envp_loop_options_separate_witness :
  let g := prom_envp_loop ["highmemsize=256"] (boot_globals "Loongson-3") in
  ([2; 5; 6] <> ([] : list Z) /\ Forall is_digit [2; 5; 6]
   /\ numeral_value [2; 5; 6] < 2 ^ 32) /\
  highmemsize g = 256 /\ memsize g = 0.
Proof.
  assert (Hne : [2; 5; 6] <> ([] : list Z)) by discriminate.
  assert (Hds : Forall is_digit [2; 5; 6])
    by (repeat constructor; unfold is_digit; lia).
  assert (Hv : numeral_value [2; 5; 6] < 2 ^ 32) by (cbn; lia).
  split; [exact (conj Hne (conj Hds Hv)) |].
  destruct (@prom_envp_loop_options_separate loongson3_env_h [2; 5; 6]
              (boot_globals "Loongson-3") Hne Hds Hv) as (_ & Hhigh & _).
  split; [exact (f_equal highmemsize Hhigh) | exact (f_equal memsize Hhigh)].
Defined.
